(** * The script runtime host of gum (gum/gumscript.cpp)

    A shallow embedding of the per-script lifecycle controller
    ([gum_script_from_string], [gum_script_load], [gum_script_unload],
    [gum_script_dispose]), of the execution scope ([ScriptScope]) and of the
    process-wide debug bridge ([gum_script_set_debug_message_handler]).

    The JavaScript engine is an external collaborator.  It enters the model
    through three parameters: the text of the bootstrap header, the compiler
    (what [Script::Compile] answers for a source text) and GLib's
    [g_strescape].  What a compiled program does when it runs is described by
    a list of [ScriptAction]s.  Every call that leaves this file (binding
    lifecycle hooks, engine scopes, the message channel, the tracer) is
    recorded, in program order, in a trace of [Event]s. *)

From Stdlib Require Import ZArith List String Ascii Bool Lia.
From Stdlib Require Import DecimalString.
Import ListNotations.

Local Open Scope Z_scope.
Local Open Scope string_scope.

(** ** Constants *)

(** [#define GUM_SCRIPT_RUNTIME_SOURCE_LINE_COUNT 1] *)
Definition GUM_SCRIPT_RUNTIME_SOURCE_LINE_COUNT : Z := 1.

(** ** Data model *)

(** The eleven subsystem bindings held by value in [_GumScriptPrivate]. *)
Inductive Binding : Type :=
| core | memory | process | thread | module | file | socket
| interceptor | stalker | symbol | instruction.

(** The two engine contexts this file keeps persistent references to. *)
Inductive V8Context : Type :=
| ScriptContext   (* [Context::New (isolate, NULL, global_templ)] *)
| DebugContext.   (* [Debug::GetDebugContext ()] *)

(** What script code can do that is visible from this file: hand a message to
    the core binding, call back into the host's [gum_script_load] on its own
    instance, or raise an exception nobody in the script catches.  The
    exception carries what [Message::GetLineNumber] and [TryCatch::Exception]
    will report; engine line numbers are non-negative [int]s, so subtracting
    the bootstrap line count from one never overflows and [Z] is used as is. *)
Inductive ScriptAction : Type :=
| JsSend (payload : string)
| JsCallLoad
| JsThrow (line : Z) (exception_str : string).

(** A compiled program ([v8::Script]). *)
Definition Script : Type := list ScriptAction.

(** The answer of [Script::Compile]: a program, or an empty handle with the
    diagnostic left in the enclosing [TryCatch]. *)
Inductive CompileResult : Type :=
| CompileOk (raw_script : Script)
| CompileFail (line : Z) (exception_str : string).

(** The state of a [TryCatch]: [None] while [HasCaught ()] is false. *)
Definition TryCatch : Type := option (Z * string).

(** [GError], as filled by [g_set_error (error, G_IO_ERROR, G_IO_ERROR_FAILED, ...)]. *)
Inductive GQuark : Type := G_IO_ERROR.
Inductive GIOErrorEnum : Type := G_IO_ERROR_FAILED.

Record GError : Type := mkGError {
  domain : GQuark;
  code : GIOErrorEnum;
  message : string
}.

(** Everything this file calls outside itself, in the order it is called. *)
Inductive Event : Type :=
| EvLock | EvUnlock                       (* [Locker] *)
| EvIsolateEnter | EvIsolateExit          (* [Isolate::Scope] *)
| EvHandleScopeOpen | EvHandleScopeClose  (* [HandleScope] *)
| EvTemplateNew                           (* [ObjectTemplate::New] *)
| EvInit (b : Binding)
| EvContextNew
| EvContextEnter | EvContextExit          (* [Context::Scope] *)
| EvRealize (b : Binding)
| EvCompile (combined_source : string)
| EvFlush (b : Binding)
| EvDispose (b : Binding)
| EvDeleteScript | EvDeleteContext        (* [delete] of a non-null persistent *)
| EvFinalize (b : Binding)
| EvRun                                   (* [Script::Run] starts *)
| EvEmitMessage (msg : string)            (* [_gum_script_core_emit_message] *)
| EvProcessPending.                       (* [_gum_script_stalker_process_pending] *)

(** [struct _GumScriptPrivate]; the bindings are opaque here and show only
    through the events of their lifecycle hooks. *)
Record GumScriptPrivate : Type := mkPriv {
  source : string;
  isolate : bool;                 (* [priv->isolate != NULL] *)
  context : option V8Context;
  raw_script : option Script;
  loaded : bool
}.

(** A script instance together with the calls it has made so far. *)
Record GumScript : Type := mkScript {
  priv : GumScriptPrivate;
  trace : list Event
}.

(** ** A state monad with fatal assertions and fuel *)

Inductive Outcome (A : Type) : Type :=
| Done (a : A) (self : GumScript)
| Fatal          (* [g_assert] failed, or a null persistent was dereferenced *)
| OutOfFuel.

Arguments Done {A} a self.
Arguments Fatal {A}.
Arguments OutOfFuel {A}.

Definition M (A : Type) : Type := GumScript -> Outcome A.

Definition ret {A} (a : A) : M A := fun self => Done a self.

Definition bind {A B} (m : M A) (k : A -> M B) : M B :=
  fun self =>
    match m self with
    | Done a self' => k a self'
    | Fatal => Fatal
    | OutOfFuel => OutOfFuel
    end.

Declare Scope host_scope.
Delimit Scope host_scope with host.
Notation "x <- m ;; k" := (bind m (fun x => k))
  (at level 61, m at next level, right associativity) : host_scope.
Notation "m ;; k" := (bind m (fun _ => k))
  (at level 61, right associativity) : host_scope.
Local Open Scope host_scope.

Definition get_priv : M GumScriptPrivate := fun self => Done (priv self) self.

Definition modify_priv (f : GumScriptPrivate -> GumScriptPrivate) : M unit :=
  fun self => Done tt (mkScript (f (priv self)) (trace self)).

Definition call (e : Event) : M unit :=
  fun self => Done tt (mkScript (priv self) (trace self ++ [e])).

Fixpoint calls (es : list Event) : M unit :=
  match es with
  | [] => ret tt
  | e :: es' => call e ;; calls es'
  end.

Definition g_assert (b : bool) : M unit :=
  fun self => if b then Done tt self else Fatal.

Definition when (b : bool) (m : M unit) : M unit := if b then m else ret tt.

Definition is_null {A} (p : option A) : bool :=
  match p with None => true | Some _ => false end.

Definition set_context (c : option V8Context) (p : GumScriptPrivate) :=
  mkPriv (source p) (isolate p) c (raw_script p) (loaded p).
Definition set_raw_script (s : option Script) (p : GumScriptPrivate) :=
  mkPriv (source p) (isolate p) (context p) s (loaded p).
Definition set_loaded (b : bool) (p : GumScriptPrivate) :=
  mkPriv (source p) (isolate p) (context p) (raw_script p) b.
Definition set_isolate (b : bool) (p : GumScriptPrivate) :=
  mkPriv (source p) b (context p) (raw_script p) (loaded p).

(** ** Formatting *)

(** [%d] of [printf]. *)
Definition string_of_Z (z : Z) : string := NilZero.string_of_int (Z.to_int z).

(** ["Script(line %d): %s"] *)
Definition script_error_message (line : Z) (exception_str : string) : string :=
  "Script(line " ++ string_of_Z line ++ "): " ++ exception_str.

Definition dquote : string := String (ascii_of_nat 34) EmptyString.

(** ["{\"type\":\"error\",\"lineNumber\":%d,\"description\":\"%s\"}"] *)
Definition error_json (line : Z) (description : string) : string :=
  "{" ++ dquote ++ "type" ++ dquote ++ ":" ++ dquote ++ "error" ++ dquote ++ ","
      ++ dquote ++ "lineNumber" ++ dquote ++ ":" ++ string_of_Z line ++ ","
      ++ dquote ++ "description" ++ dquote ++ ":" ++ dquote ++ description
      ++ dquote ++ "}".

Arguments string_of_Z : simpl never.
Arguments script_error_message : simpl never.
Arguments error_json : simpl never.

(** [g_set_error]: stores the error when the caller gave a place for it and
    does nothing when [error] is [NULL]. *)
Definition g_set_error (error : bool) (e : GError) : option GError :=
  if error then Some e else None.

Definition newline : string := String (ascii_of_nat 10) EmptyString.

(** ** Debug bridge (process-wide) *)

(** Function pointers and [gpointer]s are addresses; a nullable function
    pointer is an [option], a null [gpointer] is [0]. *)
Definition GumScriptDebugMessageHandler : Type := nat.
Definition GDestroyNotify : Type := nat.
Definition gpointer : Type := Z.

(** The only callback this file ever gives to [Debug::SetMessageHandler]. *)
Inductive DebugDispatcher : Type := gum_script_on_debug_message.

Inductive DebugEvent : Type :=
| DbLock | DbUnlock
| DbIsolateEnter | DbIsolateExit
| DbHandleScopeOpen | DbHandleScopeClose
| DbDeleteContext                                   (* [delete gum_debug_context], non-null *)
| DbSetMessageHandler (hook : option DebugDispatcher)
| DbNotify (notify : GDestroyNotify) (data : gpointer)  (* [gum_debug_notify (gum_debug_data)] *)
| DbGetDebugContext.

(** The four statics of the debug bridge, the hook the engine currently holds,
    and the calls made so far. *)
Record DebugBridge : Type := mkDebug {
  gum_debug_handler : option GumScriptDebugMessageHandler;
  gum_debug_data : gpointer;
  gum_debug_notify : option GDestroyNotify;
  gum_debug_context : option V8Context;
  engine_message_handler : option DebugDispatcher;
  debug_trace : list DebugEvent
}.

Definition debug_call (e : DebugEvent) (d : DebugBridge) : DebugBridge :=
  mkDebug (gum_debug_handler d) (gum_debug_data d) (gum_debug_notify d)
    (gum_debug_context d) (engine_message_handler d) (debug_trace d ++ [e]).

Definition Debug_SetMessageHandler (hook : option DebugDispatcher)
    (d : DebugBridge) : DebugBridge :=
  debug_call (DbSetMessageHandler hook)
    (mkDebug (gum_debug_handler d) (gum_debug_data d) (gum_debug_notify d)
       (gum_debug_context d) hook (debug_trace d)).

Definition set_debug_context (c : option V8Context) (d : DebugBridge) :=
  mkDebug (gum_debug_handler d) (gum_debug_data d) (gum_debug_notify d)
    c (engine_message_handler d) (debug_trace d).

Definition set_debug_statics (func : option GumScriptDebugMessageHandler)
    (data : gpointer) (notify : option GDestroyNotify) (d : DebugBridge) :=
  mkDebug func data notify
    (gum_debug_context d) (engine_message_handler d) (debug_trace d).

Definition gum_script_set_debug_message_handler
    (func : option GumScriptDebugMessageHandler) (data : gpointer)
    (notify : option GDestroyNotify) (d : DebugBridge) : DebugBridge :=
  let d := debug_call DbHandleScopeOpen
             (debug_call DbIsolateEnter (debug_call DbLock d)) in
  let d :=
    match gum_debug_handler d with
    | Some _ =>
        let d := match gum_debug_context d with
                 | Some _ => debug_call DbDeleteContext d
                 | None => d
                 end in
        let d := set_debug_context None d in
        let d := Debug_SetMessageHandler None d in
        let d := match gum_debug_notify d with
                 | Some release => debug_call (DbNotify release (gum_debug_data d)) d
                 | None => d
                 end in
        set_debug_statics None 0 None d
    | None => d
    end in
  let d :=
    match func with
    | Some _ =>
        let d := set_debug_statics func data notify d in
        let d := Debug_SetMessageHandler (Some gum_script_on_debug_message) d in
        set_debug_context (Some DebugContext) (debug_call DbGetDebugContext d)
    | None => d
    end in
  debug_call DbUnlock
    (debug_call DbIsolateExit (debug_call DbHandleScopeClose d)).

(** How often a given release callback was invoked on a given datum. *)
Definition is_notify (release : GDestroyNotify) (data : gpointer)
    (e : DebugEvent) : bool :=
  match e with
  | DbNotify n x => Nat.eqb n release && Z.eqb x data
  | _ => false
  end.

Definition notify_count (release : GDestroyNotify) (data : gpointer)
    (t : list DebugEvent) : nat :=
  List.length (filter (is_notify release data) t).

Arguments notify_count : simpl never.

(** The scopes [gum_script_set_debug_message_handler] works in. *)
Definition scope_open_events : list DebugEvent :=
  [DbLock; DbIsolateEnter; DbHandleScopeOpen].
Definition scope_close_events : list DebugEvent :=
  [DbHandleScopeClose; DbIsolateExit; DbUnlock].

(** The four statics and the engine's hook as the program starts. *)
Definition debug_bridge_at_start : DebugBridge :=
  mkDebug None 0 None None None [].

(** The three arguments of one call of
    [gum_script_set_debug_message_handler], and a series of such calls. *)
Record DebugRegistration : Type := mkRegistration {
  reg_func : option GumScriptDebugMessageHandler;
  reg_data : gpointer;
  reg_notify : option GDestroyNotify
}.

Definition register_debug (r : DebugRegistration) (d : DebugBridge)
  : DebugBridge :=
  gum_script_set_debug_message_handler (reg_func r) (reg_data r) (reg_notify r) d.

Definition register_all (rs : list DebugRegistration) (d : DebugBridge)
  : DebugBridge :=
  fold_left (fun d r => register_debug r d) rs d.

(** A handler is registered exactly when the engine holds the hook and the
    reference to the debug context is kept; with no handler the other statics
    are null as well. *)
Definition debug_consistent (d : DebugBridge) : bool :=
  match gum_debug_handler d with
  | Some _ =>
      negb (is_null (gum_debug_context d))
      && negb (is_null (engine_message_handler d))
  | None =>
      is_null (gum_debug_context d) && is_null (engine_message_handler d)
      && is_null (gum_debug_notify d) && Z.eqb (gum_debug_data d) 0
  end.

(** The release callbacks a trace shows, with the datum each was called on. *)
Fixpoint notifications (t : list DebugEvent)
  : list (GDestroyNotify * gpointer) :=
  match t with
  | [] => []
  | DbNotify release data :: t' => (release, data) :: notifications t'
  | _ :: t' => notifications t'
  end.

(** The release a registration is owed once it is replaced: none when it
    registers no handler or names no release callback. *)
Definition release_due (r : DebugRegistration)
  : list (GDestroyNotify * gpointer) :=
  match reg_func r, reg_notify r with
  | Some _, Some release => [(release, reg_data r)]
  | _, _ => []
  end.

(** The release owed to what is registered now. *)
Definition release_pending (d : DebugBridge)
  : list (GDestroyNotify * gpointer) :=
  match gum_debug_handler d, gum_debug_notify d with
  | Some _, Some release => [(release, gum_debug_data d)]
  | _, _ => []
  end.

(** What becomes of a debug message of the engine. *)
Inductive Delivery : Type :=
| NotHooked
| Handled (handler : GumScriptDebugMessageHandler) (json : string)
    (data : gpointer)
| CallThroughNull.

(** The body of the function [gum_script_on_debug_message]: the JSON text of
    the message goes to [gum_debug_handler] with [gum_debug_data]. *)
Definition call_gum_script_on_debug_message (json : string) (d : DebugBridge)
  : Delivery :=
  match gum_debug_handler d with
  | Some handler => Handled handler json (gum_debug_data d)
  | None => CallThroughNull
  end.

(** The engine with a debug message at hand calls the hook it was given. *)
Definition engine_delivers (json : string) (d : DebugBridge) : Delivery :=
  match engine_message_handler d with
  | Some gum_script_on_debug_message => call_gum_script_on_debug_message json d
  | None => NotHooked
  end.

(** The outcome of [gum_script_post_debug_message]: a failed assertion or a
    null persistent read through, or the command sent and what became of the
    messages the engine had when its queue was processed. *)
Inductive PostOutcome : Type :=
| PostFatal
| Posted (command : list Z) (deliveries : list Delivery).

Section DebugCommands.

(** GLib's [g_utf8_to_utf16], [None] for the [NULL] it answers on text that is
    not UTF-8. *)
Variable g_utf8_to_utf16 : string -> option (list Z).
(** The messages the engine answers a command with. *)
Variable engine_debug_replies : list Z -> list string.

Definition gum_script_post_debug_message (message : string) (d : DebugBridge)
  : PostOutcome :=
  match gum_debug_handler d with
  | None => PostFatal
  | Some _ =>
      match gum_debug_context d with
      | None => PostFatal
      | Some _ =>
          match g_utf8_to_utf16 message with
          | None => PostFatal
          | Some command =>
              Posted command
                (map (fun json => engine_delivers json d)
                   (engine_debug_replies command))
          end
      end
  end.

End DebugCommands.

(** ** Engine runtime (process-wide) *)

(** [#define GUM_SCRIPT_V8_FLAGS "--harmony --expose-gc"] *)
Definition GUM_SCRIPT_V8_FLAGS : string := "--harmony --expose-gc".

Inductive RuntimeEvent : Type :=
| RtSchedulerNew                 (* [gum_script_scheduler_new] *)
| RtPlatformNew                  (* [new GumScriptPlatform] *)
| RtSetFlagsFromString (flags : string) (length : Z)
| RtInitializePlatform           (* [V8::InitializePlatform] *)
| RtInitialize                   (* [V8::Initialize] *)
| RtIsolateNew | RtIsolateEnter
| RtRegisterDestructor           (* [_gum_register_destructor] *)
| RtIsolateExit | RtIsolateDispose
| RtDispose                      (* [V8::Dispose] *)
| RtShutdownPlatform             (* [V8::ShutdownPlatform] *)
| RtPlatformDelete               (* [delete gum_platform] *)
| RtSchedulerFree.               (* [gum_script_scheduler_free] *)

(** The [GOnce] of [gum_script_runtime_get_isolate], the two statics of the
    runtime, whether the teardown is registered, and the debug bridge. *)
Record Runtime : Type := mkRuntime {
  init_once : bool;
  gum_scheduler : bool;            (* [gum_scheduler != NULL] *)
  gum_platform : bool;             (* [gum_platform != nullptr] *)
  destructor_registered : bool;
  debug : DebugBridge;
  runtime_trace : list RuntimeEvent
}.

Definition runtime_at_start : Runtime :=
  mkRuntime false false false false debug_bridge_at_start [].

Definition runtime_calls (es : list RuntimeEvent) (rt : Runtime) : Runtime :=
  mkRuntime (init_once rt) (gum_scheduler rt) (gum_platform rt)
    (destructor_registered rt) (debug rt) (runtime_trace rt ++ es).

Definition gum_script_runtime_do_init (rt : Runtime) : Runtime :=
  let rt := runtime_calls [RtSchedulerNew] rt in
  let rt := mkRuntime (init_once rt) true (gum_platform rt)
              (destructor_registered rt) (debug rt) (runtime_trace rt) in
  let rt := runtime_calls [RtPlatformNew] rt in
  let rt := mkRuntime (init_once rt) (gum_scheduler rt) true
              (destructor_registered rt) (debug rt) (runtime_trace rt) in
  let rt := runtime_calls
              [RtSetFlagsFromString GUM_SCRIPT_V8_FLAGS
                 (Z.of_nat (String.length GUM_SCRIPT_V8_FLAGS));
               RtInitializePlatform; RtInitialize;
               RtIsolateNew; RtIsolateEnter; RtRegisterDestructor] rt in
  mkRuntime (init_once rt) (gum_scheduler rt) (gum_platform rt)
    true (debug rt) (runtime_trace rt).

(** [g_once (&init_once, gum_script_runtime_do_init, NULL)] *)
Definition gum_script_runtime_get_isolate (rt : Runtime) : Runtime :=
  if init_once rt
  then rt
  else
    let rt := gum_script_runtime_do_init rt in
    mkRuntime true (gum_scheduler rt) (gum_platform rt)
      (destructor_registered rt) (debug rt) (runtime_trace rt).

(** [gum_script_set_debug_message_handler] from its first statement on: the
    isolate is fetched, which may bring the runtime up, then the statics of
    the debug bridge are worked on. *)
Definition runtime_set_debug_message_handler
    (func : option GumScriptDebugMessageHandler) (data : gpointer)
    (notify : option GDestroyNotify) (rt : Runtime) : Runtime :=
  let rt := gum_script_runtime_get_isolate rt in
  mkRuntime (init_once rt) (gum_scheduler rt) (gum_platform rt)
    (destructor_registered rt)
    (gum_script_set_debug_message_handler func data notify (debug rt))
    (runtime_trace rt).

Definition gum_script_runtime_do_deinit (rt : Runtime) : Runtime :=
  let rt := runtime_set_debug_message_handler None 0 None rt in
  let rt := runtime_calls
              [RtIsolateExit; RtIsolateDispose; RtDispose; RtShutdownPlatform;
               RtPlatformDelete] rt in
  let rt := mkRuntime (init_once rt) (gum_scheduler rt) false
              (destructor_registered rt) (debug rt) (runtime_trace rt) in
  let rt := runtime_calls [RtSchedulerFree] rt in
  mkRuntime (init_once rt) false (gum_platform rt)
    (destructor_registered rt) (debug rt) (runtime_trace rt).

(** What in this file reaches the runtime: the making of a script instance
    ([gum_script_init] fetches the isolate) and the registration of a debug
    handler. *)
Inductive RuntimeUse : Type :=
| UseScriptInit
| UseSetDebugHandler (r : DebugRegistration).

Definition runtime_use (rt : Runtime) (u : RuntimeUse) : Runtime :=
  match u with
  | UseScriptInit => gum_script_runtime_get_isolate rt
  | UseSetDebugHandler r =>
      runtime_set_debug_message_handler (reg_func r) (reg_data r)
        (reg_notify r) rt
  end.

Definition registrations_of (uses : list RuntimeUse)
  : list DebugRegistration :=
  flat_map (fun u => match u with
                     | UseScriptInit => []
                     | UseSetDebugHandler r => [r]
                     end) uses.

(** The registered destructors are run when the process winds down. *)
Definition process_exit (rt : Runtime) : Runtime :=
  if destructor_registered rt then gum_script_runtime_do_deinit rt else rt.

(** The runtime once it has been brought up. *)
Definition runtime_up (rt : Runtime) : Prop :=
  init_once rt = true /\ destructor_registered rt = true /\
  gum_scheduler rt = true /\ gum_platform rt = true /\
  runtime_trace rt =
    [RtSchedulerNew; RtPlatformNew;
     RtSetFlagsFromString GUM_SCRIPT_V8_FLAGS 21;
     RtInitializePlatform; RtInitialize; RtIsolateNew; RtIsolateEnter;
     RtRegisterDestructor].

(** What a use of the runtime does to the debug bridge. *)
Definition debug_after_use (u : RuntimeUse) (d : DebugBridge) : DebugBridge :=
  match u with
  | UseScriptInit => d
  | UseSetDebugHandler r => register_debug r d
  end.

(** What the runtime holds, by the call that acquires it and the call that
    gives it up. *)
Inductive RuntimeResource : Type :=
| ResScheduler | ResPlatform | ResEnginePlatform | ResEngine
| ResIsolate | ResEnteredIsolate.

Fixpoint acquired_of (t : list RuntimeEvent) : list RuntimeResource :=
  match t with
  | [] => []
  | RtSchedulerNew :: t' => ResScheduler :: acquired_of t'
  | RtPlatformNew :: t' => ResPlatform :: acquired_of t'
  | RtInitializePlatform :: t' => ResEnginePlatform :: acquired_of t'
  | RtInitialize :: t' => ResEngine :: acquired_of t'
  | RtIsolateNew :: t' => ResIsolate :: acquired_of t'
  | RtIsolateEnter :: t' => ResEnteredIsolate :: acquired_of t'
  | _ :: t' => acquired_of t'
  end.

Fixpoint released_of (t : list RuntimeEvent) : list RuntimeResource :=
  match t with
  | [] => []
  | RtSchedulerFree :: t' => ResScheduler :: released_of t'
  | RtPlatformDelete :: t' => ResPlatform :: released_of t'
  | RtShutdownPlatform :: t' => ResEnginePlatform :: released_of t'
  | RtDispose :: t' => ResEngine :: released_of t'
  | RtIsolateDispose :: t' => ResIsolate :: released_of t'
  | RtIsolateExit :: t' => ResEnteredIsolate :: released_of t'
  | _ :: t' => released_of t'
  end.

(** ** Observations on traces and programs *)

Definition is_run (e : Event) : bool :=
  match e with EvRun => true | _ => false end.
Definition is_emit (e : Event) : bool :=
  match e with EvEmitMessage _ => true | _ => false end.
Definition is_process_pending (e : Event) : bool :=
  match e with EvProcessPending => true | _ => false end.

Definition count (f : Event -> bool) (t : list Event) : nat :=
  List.length (filter f t).

(** The bindings whose [init] hook a trace shows, in call order. *)
Fixpoint inits_of (t : list Event) : list Binding :=
  match t with
  | [] => []
  | EvInit b :: t' => b :: inits_of t'
  | _ :: t' => inits_of t'
  end.

(** The messages a program sends before it ends or throws, and how it ends;
    calls back into load contribute nothing of their own. *)
Fixpoint script_sends (prog : Script) : list string :=
  match prog with
  | [] => []
  | JsSend payload :: rest => payload :: script_sends rest
  | JsCallLoad :: rest => script_sends rest
  | JsThrow _ _ :: _ => []
  end.

Fixpoint script_outcome (prog : Script) : TryCatch :=
  match prog with
  | [] => None
  | JsSend _ :: rest => script_outcome rest
  | JsCallLoad :: rest => script_outcome rest
  | JsThrow line exception_str :: _ => Some (line, exception_str)
  end.

(** The invariant of a script instance: context and compiled program are there
    together or not at all, and [loaded] needs a compiled program. *)
Definition lifecycle_ok (p : GumScriptPrivate) : bool :=
  Bool.eqb (is_null (context p)) (is_null (raw_script p))
  && implb (loaded p) (negb (is_null (raw_script p))).

(** The position of a binding among the fields of [_GumScriptPrivate]. *)
Definition binding_index (b : Binding) : nat :=
  match b with
  | core => 0 | memory => 1 | process => 2 | thread => 3 | module => 4
  | file => 5 | socket => 6 | interceptor => 7 | stalker => 8
  | symbol => 9 | instruction => 10
  end.

Definition Binding_eqb (a b : Binding) : bool :=
  Nat.eqb (binding_index a) (binding_index b).

(** The four lifecycle hooks of one binding, as they show in a trace. *)
Definition is_init (b : Binding) (e : Event) : bool :=
  match e with EvInit b' => Binding_eqb b b' | _ => false end.
Definition is_realize (b : Binding) (e : Event) : bool :=
  match e with EvRealize b' => Binding_eqb b b' | _ => false end.
Definition is_dispose (b : Binding) (e : Event) : bool :=
  match e with EvDispose b' => Binding_eqb b b' | _ => false end.
Definition is_finalize (b : Binding) (e : Event) : bool :=
  match e with EvFinalize b' => Binding_eqb b b' | _ => false end.

(** The bindings whose [realize] hook a trace shows, in call order. *)
Fixpoint realizes_of (t : list Event) : list Binding :=
  match t with
  | [] => []
  | EvRealize b :: t' => b :: realizes_of t'
  | _ :: t' => realizes_of t'
  end.

(** Every binding has been realized as often as initialised and finalized as
    often as disposed, and is initialised once more than finalized exactly
    while the instance has a context. *)
Definition bindings_accounted (self : GumScript) : Prop :=
  forall b,
    count (is_realize b) (trace self) = count (is_init b) (trace self) /\
    count (is_finalize b) (trace self) = count (is_dispose b) (trace self) /\
    count (is_init b) (trace self)
    = (count (is_finalize b) (trace self)
       + if is_null (context (priv self)) then 0 else 1)%nat.

(** The same relation between a trace and whether there is a context. *)
Definition accounted_at (t : list Event) (with_context : bool) : Prop :=
  forall b,
    count (is_realize b) t = count (is_init b) t /\
    count (is_finalize b) t = count (is_dispose b) t /\
    count (is_init b) t
    = (count (is_finalize b) t + if with_context then 1 else 0)%nat.

(** The engine scopes a thread is inside of, innermost first. *)
Inductive EngineScope : Type :=
| InLocker | InIsolate | InHandleScope | InContext.

(** What a call needs around it.  A scope is opened inside the one the code
    opens it in and closed when it is the innermost; template, init, finalize
    and the handling of the persistent references happen in a handle scope
    with no context entered; realize, compile, flush, dispose, running and
    emitting happen in an entered context; the tracer hook is called with no
    scope left open. *)
Definition scope_step (stack : list EngineScope) (e : Event)
  : option (list EngineScope) :=
  match e, stack with
  | EvLock, [] => Some [InLocker]
  | EvUnlock, [InLocker] => Some []
  | EvIsolateEnter, InLocker :: _ => Some (InIsolate :: stack)
  | EvIsolateExit, InIsolate :: outer => Some outer
  | EvHandleScopeOpen, InIsolate :: _ => Some (InHandleScope :: stack)
  | EvHandleScopeClose, InHandleScope :: outer => Some outer
  | EvContextEnter, InHandleScope :: _ => Some (InContext :: stack)
  | EvContextExit, InContext :: outer => Some outer
  | (EvTemplateNew | EvInit _ | EvContextNew | EvDeleteScript
     | EvDeleteContext | EvFinalize _), InHandleScope :: _ => Some stack
  | (EvRealize _ | EvCompile _ | EvFlush _ | EvDispose _ | EvRun
     | EvEmitMessage _), InContext :: _ => Some stack
  | EvProcessPending, [] => Some []
  | _, _ => None
  end.

Fixpoint scopes_after (stack : list EngineScope) (t : list Event)
  : option (list EngineScope) :=
  match t with
  | [] => Some stack
  | e :: t' =>
      match scope_step stack e with
      | Some stack' => scopes_after stack' t'
      | None => None
      end
  end.

(** A trace that starts and ends with no scope open and in which every call
    has the scopes it needs. *)
Definition scopes_respected (t : list Event) : bool :=
  match scopes_after [] t with
  | Some [] => true
  | _ => false
  end.

(** ** Positions and lines in a source text *)




(** ** A small engine to run the model on *)

Definition toy_runtime : string := "(function () {}).call (this);".

Definition toy_engine (s : string) : CompileResult :=
  if String.eqb s (toy_runtime ++ newline ++ "}")
  then CompileFail 2 "SyntaxError: Unexpected token }"
  else if String.eqb s (toy_runtime ++ newline ++ "throw new Error('boom')")
  then CompileOk [JsThrow 2 "Error: boom"]
  else if String.eqb s (toy_runtime ++ newline ++ "send(1+1)")
  then CompileOk [JsSend "2"]
  else if String.eqb s (toy_runtime ++ newline ++ "send('a'); load(); send('b'); load()")
  then CompileOk [JsSend "a"; JsCallLoad; JsSend "b"; JsCallLoad]
  else CompileOk [].

(** An engine that has no position for its diagnostic: [Message::GetLineNumber]
    answers 0 then. *)
Definition lineless_engine (s : string) : CompileResult :=
  CompileFail 0 "RangeError: Maximum call stack size exceeded".

(** Escapes backslash and double quote; enough of [g_strescape] for the texts
    the toy engine produces. *)
Fixpoint toy_strescape (s : string) : string :=
  match s with
  | EmptyString => EmptyString
  | String c s' =>
      if Ascii.eqb c (ascii_of_nat 34) || Ascii.eqb c (ascii_of_nat 92)
      then String (ascii_of_nat 92) (String c (toy_strescape s'))
      else String c (toy_strescape s')
  end.

(** What [gum_script_from_string] leaves in the trace of an instance whose
    source the toy engine accepts, and that instance. *)
Definition toy_created_trace (src : string) : list Event :=
  [EvLock; EvIsolateEnter; EvHandleScopeOpen; EvTemplateNew;
   EvInit core; EvInit memory; EvInit process; EvInit thread; EvInit module;
   EvInit file; EvInit socket; EvInit interceptor; EvInit stalker;
   EvInit symbol; EvInit instruction;
   EvContextNew; EvContextEnter;
   EvRealize core; EvRealize memory; EvRealize process; EvRealize thread;
   EvRealize module; EvRealize file; EvRealize socket; EvRealize interceptor;
   EvRealize stalker; EvRealize symbol; EvRealize instruction;
   EvCompile (toy_runtime ++ newline ++ src);
   EvContextExit; EvHandleScopeClose; EvIsolateExit; EvUnlock].

Definition toy_created (src : string) (compiled : Script) : GumScript :=
  mkScript (mkPriv src true (Some ScriptContext) (Some compiled) false)
    (toy_created_trace src).

Definition boom_src : string := "throw new Error('boom')".
Definition boom_instance : GumScript :=
  toy_created boom_src [JsThrow 2 "Error: boom"].

Definition reentrant_src : string := "send('a'); load(); send('b'); load()".
Definition reentrant_instance : GumScript :=
  toy_created reentrant_src [JsSend "a"; JsCallLoad; JsSend "b"; JsCallLoad].

(** An instance made with [g_object_new] alone from a source the toy engine
    rejects. *)
Definition rejected_instance : GumScript :=
  mkScript (mkPriv "}" true None None false) [].

(** ** The script instance *)

Section Host.

(** The text of [gumscript-runtime.h], a generated header. *)
Variable runtime_source : string.
(** [Script::Compile] on a source text. *)
Variable engine_compile : string -> CompileResult.
(** GLib's [g_strescape (s, "")]. *)
Variable g_strescape : string -> string.

(** ** Context teardown *)

Definition gum_script_destroy_context : M unit :=
  p <- get_priv ;;
  g_assert (negb (is_null (context p))) ;;
  calls [EvLock; EvIsolateEnter; EvHandleScopeOpen] ;;
  call EvContextEnter ;;
  call (EvFlush core) ;;
  call (EvDispose instruction) ;;
  call (EvDispose symbol) ;;
  call (EvDispose stalker) ;;
  call (EvDispose interceptor) ;;
  call (EvDispose socket) ;;
  call (EvDispose file) ;;
  call (EvDispose module) ;;
  call (EvDispose thread) ;;
  call (EvDispose process) ;;
  call (EvDispose memory) ;;
  call (EvDispose core) ;;
  call EvContextExit ;;
  p <- get_priv ;;
  when (negb (is_null (raw_script p))) (call EvDeleteScript) ;;
  modify_priv (set_raw_script None) ;;
  when (negb (is_null (context p))) (call EvDeleteContext) ;;
  modify_priv (set_context None) ;;
  call (EvFinalize instruction) ;;
  call (EvFinalize symbol) ;;
  call (EvFinalize stalker) ;;
  call (EvFinalize interceptor) ;;
  call (EvFinalize socket) ;;
  call (EvFinalize file) ;;
  call (EvFinalize module) ;;
  call (EvFinalize thread) ;;
  call (EvFinalize process) ;;
  call (EvFinalize memory) ;;
  call (EvFinalize core) ;;
  modify_priv (set_loaded false) ;;
  calls [EvHandleScopeClose; EvIsolateExit; EvUnlock].

(** ** Context creation and compilation *)

Definition combined_source (src : string) : string :=
  runtime_source ++ newline ++ src.

Definition gum_script_create_context (error : bool) : M (bool * option GError) :=
  p <- get_priv ;;
  g_assert (is_null (context p)) ;;
  calls [EvLock; EvIsolateEnter; EvHandleScopeOpen] ;;
  call EvTemplateNew ;;
  call (EvInit core) ;;
  call (EvInit memory) ;;
  call (EvInit process) ;;
  call (EvInit thread) ;;
  call (EvInit module) ;;
  call (EvInit file) ;;
  call (EvInit socket) ;;
  call (EvInit interceptor) ;;
  call (EvInit stalker) ;;
  call (EvInit symbol) ;;
  call (EvInit instruction) ;;
  call EvContextNew ;;
  modify_priv (set_context (Some ScriptContext)) ;;
  call EvContextEnter ;;
  call (EvRealize core) ;;
  call (EvRealize memory) ;;
  call (EvRealize process) ;;
  call (EvRealize thread) ;;
  call (EvRealize module) ;;
  call (EvRealize file) ;;
  call (EvRealize socket) ;;
  call (EvRealize interceptor) ;;
  call (EvRealize stalker) ;;
  call (EvRealize symbol) ;;
  call (EvRealize instruction) ;;
  call (EvCompile (combined_source (source p))) ;;
  err <- match engine_compile (combined_source (source p)) with
         | CompileFail line exception_str =>
             ret (g_set_error error
                    (mkGError G_IO_ERROR G_IO_ERROR_FAILED
                       (script_error_message
                          (line - GUM_SCRIPT_RUNTIME_SOURCE_LINE_COUNT)
                          exception_str)))
         | CompileOk compiled =>
             modify_priv (set_raw_script (Some compiled)) ;;
             ret None
         end ;;
  calls [EvContextExit; EvHandleScopeClose; EvIsolateExit; EvUnlock] ;;
  p <- get_priv ;;
  if is_null (raw_script p)
  then gum_script_destroy_context ;; ret (false, err)
  else ret (true, err).

(** ** Execution scope *)

(** [ScriptScope::ScriptScope]: the members of [ScriptScopeImpl] are built in
    declaration order; building [context] reads through [priv->context]. *)
Definition ScriptScope_enter : M TryCatch :=
  p <- get_priv ;;
  calls [EvLock; EvIsolateEnter; EvHandleScopeOpen] ;;
  g_assert (negb (is_null (context p))) ;;
  call EvContextEnter ;;
  ret None.

(** [ScriptScope::~ScriptScope]: the body of [~ScriptScopeImpl], then its
    members destroyed in reverse order, then the tracer hook. *)
Definition ScriptScope_leave (trycatch : TryCatch) : M unit :=
  match trycatch with
  | Some (line, exception_str) =>
      call (EvEmitMessage
              (error_json (line - GUM_SCRIPT_RUNTIME_SOURCE_LINE_COUNT)
                 (g_strescape exception_str)))
  | None => ret tt
  end ;;
  calls [EvContextExit; EvHandleScopeClose; EvIsolateExit; EvUnlock] ;;
  call EvProcessPending.

(** [{ ScriptScope scope (self); body }]: what happens around any entry into
    script code. *)
Definition with_ScriptScope (body : M TryCatch) : M unit :=
  _ <- ScriptScope_enter ;;
  caught <- body ;;
  ScriptScope_leave caught.

(** [Script::Run] on a compiled program; [reenter] is what a call from the
    script back into the host's load does.  The answer is the state the
    enclosing [TryCatch] is left in. *)
Fixpoint Script_Run (reenter : M unit) (prog : Script) : M TryCatch :=
  match prog with
  | [] => ret None
  | JsSend payload :: rest =>
      call (EvEmitMessage payload) ;; Script_Run reenter rest
  | JsCallLoad :: rest =>
      reenter ;; Script_Run reenter rest
  | JsThrow line exception_str :: _ =>
      ret (Some (line, exception_str))
  end.

(** ** Public operations *)

Fixpoint gum_script_load (fuel : nat) : M unit :=
  match fuel with
  | O => fun _ => OutOfFuel
  | S fuel' =>
      p <- get_priv ;;
      when (is_null (raw_script p))
        (_ <- gum_script_create_context false ;; ret tt) ;;
      p <- get_priv ;;
      match raw_script p with
      | Some compiled =>
          if negb (loaded p)
          then
            modify_priv (set_loaded true) ;;
            with_ScriptScope
              (call EvRun ;; Script_Run (gum_script_load fuel') compiled)
          else ret tt
      | None => ret tt
      end
  end.

Definition gum_script_unload : M unit :=
  p <- get_priv ;;
  if loaded p
  then modify_priv (set_loaded false) ;; gum_script_destroy_context
  else ret tt.

Definition gum_script_dispose : M unit :=
  gum_script_unload ;;
  modify_priv (set_isolate false).

(** [g_object_new (GUM_TYPE_SCRIPT, "source", source, NULL)]: zeroed private
    data, then [gum_script_init] and the [source] property. *)
Definition g_object_new (src : string) : GumScript :=
  mkScript (mkPriv src true None None false) [].

(** [g_object_unref] of the only reference: the object is disposed; its memory
    goes away afterwards, the model keeps the last state for inspection. *)
Definition g_object_unref : M unit := gum_script_dispose.

(** The handle returned ([None] for [NULL]) and the error stored through
    [error]; the instance the call worked on is the state of the outcome. *)
Definition gum_script_from_string (src : string) (error : bool)
  : Outcome (option GumScript * option GError) :=
  (r <- gum_script_create_context error ;;
   if fst r
   then (fun self => Done (Some self, snd r) self)
   else g_object_unref ;; ret (None, snd r)) (g_object_new src).

(** ** What the claims compare the code with *)

(** The order in which the bindings are initialised and realised. *)
Definition binding_init_order : list Binding :=
  [core; memory; process; thread; module; file; socket;
   interceptor; stalker; symbol; instruction].

Definition build_events (src : string) : list Event :=
  [EvLock; EvIsolateEnter; EvHandleScopeOpen; EvTemplateNew]
  ++ map EvInit binding_init_order
  ++ [EvContextNew; EvContextEnter]
  ++ map EvRealize binding_init_order
  ++ [EvCompile (combined_source src);
      EvContextExit; EvHandleScopeClose; EvIsolateExit; EvUnlock].

(** Teardown as the specification words it: flush of the core binding,
    dispose in reverse init order inside the context, release of the two
    persistent references, finalize in reverse init order outside it. *)
Definition teardown_events (had_script : bool) : list Event :=
  [EvLock; EvIsolateEnter; EvHandleScopeOpen]
  ++ [EvContextEnter; EvFlush core]
  ++ map EvDispose (rev binding_init_order)
  ++ [EvContextExit]
  ++ (if had_script then [EvDeleteScript] else [])
  ++ [EvDeleteContext]
  ++ map EvFinalize (rev binding_init_order)
  ++ [EvHandleScopeClose; EvIsolateExit; EvUnlock].

Definition enter_events : list Event :=
  [EvLock; EvIsolateEnter; EvHandleScopeOpen; EvContextEnter].

Definition error_events (caught : TryCatch) : list Event :=
  match caught with
  | Some (line, exception_str) =>
      [EvEmitMessage
         (error_json (line - GUM_SCRIPT_RUNTIME_SOURCE_LINE_COUNT)
            (g_strescape exception_str))]
  | None => []
  end.

Definition leave_events (caught : TryCatch) : list Event :=
  error_events caught
  ++ [EvContextExit; EvHandleScopeClose; EvIsolateExit; EvUnlock]
  ++ [EvProcessPending].

Definition add_events (self : GumScript) (es : list Event) : GumScript :=
  mkScript (priv self) (trace self ++ es).

(** The calls a host makes on an instance it holds, and a series of them. *)
Inductive HostCall : Type := CallLoad | CallUnload.

Definition host_call (fuel : nat) (c : HostCall) : M unit :=
  match c with
  | CallLoad => gum_script_load (S (S fuel))
  | CallUnload => gum_script_unload
  end.

Fixpoint host_calls (fuel : nat) (cs : list HostCall) : M unit :=
  match cs with
  | [] => ret tt
  | c :: cs' => host_call fuel c ;; host_calls fuel cs'
  end.

(** The three things an instance ever does to the outside: build a context,
    run its program inside an execution scope, tear the context down. *)
Inductive Phase : Type :=
| PhBuild (src : string)
| PhRun (compiled : Script)
| PhTeardown (had_script : bool).

Definition run_events (compiled : Script) : list Event :=
  enter_events ++ [EvRun]
  ++ map EvEmitMessage (script_sends compiled)
  ++ leave_events (script_outcome compiled).

Definition phase_events (ph : Phase) : list Event :=
  match ph with
  | PhBuild src => build_events src
  | PhRun compiled => run_events compiled
  | PhTeardown had_script => teardown_events had_script
  end.

(** Whether a series of phases makes sense from an instance that has, or has
    not, a context, and whether it leaves one. *)
Fixpoint phases_fit (has_context : bool) (phases : list Phase) : option bool :=
  match phases with
  | [] => Some has_context
  | PhBuild _ :: rest => if has_context then None else phases_fit true rest
  | PhRun _ :: rest => if has_context then phases_fit true rest else None
  | PhTeardown _ :: rest => if has_context then phases_fit false rest else None
  end.

Definition has_context (self : GumScript) : bool :=
  negb (is_null (context (priv self))).

(** How many runs a series of phases holds, and how many loads a series of
    calls. *)
Fixpoint phase_runs (phases : list Phase) : nat :=
  match phases with
  | [] => 0
  | PhRun _ :: rest => S (phase_runs rest)
  | _ :: rest => phase_runs rest
  end.

Fixpoint loads_in (cs : list HostCall) : nat :=
  match cs with
  | [] => 0
  | CallLoad :: rest => S (loads_in rest)
  | CallUnload :: rest => loads_in rest
  end.

(** ** Basic facts *)

Ltac open_instance self :=
  let p := fresh "p" in
  let t := fresh "t" in
  destruct self as [p t]; destruct p as [src iso ctx prog ld].

Ltac tidy_trace :=
  cbn; unfold call, ret; cbn; repeat rewrite <- app_assoc; cbn.

Lemma destroy_context_result (self : GumScript) :
  context (priv self) <> None ->
  gum_script_destroy_context self =
  Done tt
    (mkScript
       (mkPriv (source (priv self)) (isolate (priv self)) None None false)
       (trace self
        ++ teardown_events (negb (is_null (raw_script (priv self)))))).
Proof.
  open_instance self. cbn. intros Hctx.
  destruct ctx as [c|]; [|congruence].
  destruct prog as [compiled|]; tidy_trace; reflexivity.
Qed.

Lemma create_context_compiled (self : GumScript) (error : bool)
    (compiled : Script) :
  context (priv self) = None ->
  engine_compile (combined_source (source (priv self))) = CompileOk compiled ->
  gum_script_create_context error self =
  Done (true, None)
    (mkScript
       (mkPriv (source (priv self)) (isolate (priv self))
          (Some ScriptContext) (Some compiled) (loaded (priv self)))
       (trace self ++ build_events (source (priv self)))).
Proof.
  open_instance self. cbn. intros -> Hc.
  unfold gum_script_create_context. cbn. rewrite Hc.
  tidy_trace. reflexivity.
Qed.

Lemma create_context_rejected (self : GumScript) (error : bool)
    (line : Z) (exception_str : string) :
  context (priv self) = None ->
  raw_script (priv self) = None ->
  engine_compile (combined_source (source (priv self)))
    = CompileFail line exception_str ->
  gum_script_create_context error self =
  Done (false,
        g_set_error error
          (mkGError G_IO_ERROR G_IO_ERROR_FAILED
             (script_error_message
                (line - GUM_SCRIPT_RUNTIME_SOURCE_LINE_COUNT) exception_str)))
    (mkScript
       (mkPriv (source (priv self)) (isolate (priv self)) None None false)
       (trace self ++ build_events (source (priv self))
        ++ teardown_events false)).
Proof.
  open_instance self. cbn. intros -> -> Hc.
  unfold gum_script_create_context. cbn. rewrite Hc.
  tidy_trace. reflexivity.
Qed.

Lemma ScriptScope_enter_result (self : GumScript) :
  context (priv self) <> None ->
  ScriptScope_enter self = Done None (add_events self enter_events).
Proof.
  open_instance self. cbn. intros Hctx.
  destruct ctx as [c|]; [|congruence].
  unfold add_events. tidy_trace. reflexivity.
Qed.

Lemma ScriptScope_leave_result (caught : TryCatch) (self : GumScript) :
  ScriptScope_leave caught self = Done tt (add_events self (leave_events caught)).
Proof.
  open_instance self. unfold add_events.
  destruct caught as [[line exception_str]|]; tidy_trace; reflexivity.
Qed.

Lemma with_ScriptScope_result (body : M TryCatch) (self after : GumScript)
    (caught : TryCatch) :
  context (priv self) <> None ->
  body (add_events self enter_events) = Done caught after ->
  with_ScriptScope body self = Done tt (add_events after (leave_events caught)).
Proof.
  intros Hctx Hbody. unfold with_ScriptScope, bind.
  rewrite (ScriptScope_enter_result self Hctx), Hbody.
  apply ScriptScope_leave_result.
Qed.

(** Load on an instance that is loaded already touches nothing. *)
Lemma load_again_is_noop (fuel : nat) (self : GumScript) :
  loaded (priv self) = true ->
  raw_script (priv self) <> None ->
  gum_script_load (S fuel) self = Done tt self.
Proof.
  open_instance self. cbn. intros -> Hprog.
  destruct prog as [compiled|]; [reflexivity|congruence].
Qed.

(** While the instance is loaded, a program's calls back into load leave no
    mark: the run sends its messages and ends the way the program ends. *)
Lemma Script_Run_result (reenter : M unit) (prog : Script) :
  (forall s, loaded (priv s) = true -> raw_script (priv s) <> None ->
             reenter s = Done tt s) ->
  forall self,
    loaded (priv self) = true ->
    raw_script (priv self) <> None ->
    Script_Run reenter prog self =
    Done (script_outcome prog)
      (add_events self (map EvEmitMessage (script_sends prog))).
Proof.
  intros Hre. induction prog as [|a rest IH]; intros self Hl Hp.
  - unfold add_events. cbn. rewrite app_nil_r. destruct self; reflexivity.
  - destruct a as [payload| |line exception_str].
    + cbn [Script_Run script_sends script_outcome map]. unfold bind at 1.
      cbn [call]. rewrite IH by (cbn; assumption).
      unfold add_events. cbn. rewrite <- app_assoc. reflexivity.
    + cbn [Script_Run script_sends script_outcome]. unfold bind at 1.
      rewrite (Hre self Hl Hp). apply IH; assumption.
    + unfold add_events. cbn. rewrite app_nil_r. destruct self; reflexivity.
Qed.

(** Load on an instance that holds a compiled program and is not loaded:
    the flag goes up, the program runs once inside an execution scope. *)
Lemma load_runs_program (fuel : nat) (self : GumScript) (compiled : Script) :
  context (priv self) <> None ->
  raw_script (priv self) = Some compiled ->
  loaded (priv self) = false ->
  gum_script_load (S (S fuel)) self =
  Done tt
    (mkScript (set_loaded true (priv self))
       (trace self ++ enter_events ++ [EvRun]
        ++ map EvEmitMessage (script_sends compiled)
        ++ leave_events (script_outcome compiled))).
Proof.
  intros Hctx Hprog Hld.
  change (gum_script_load (S (S fuel)) self) with
    ((p <- get_priv ;;
      when (is_null (raw_script p))
        (_ <- gum_script_create_context false ;; ret tt) ;;
      p <- get_priv ;;
      match raw_script p with
      | Some compiled =>
          if negb (loaded p)
          then
            modify_priv (set_loaded true) ;;
            with_ScriptScope
              (call EvRun ;; Script_Run (gum_script_load (S fuel)) compiled)
          else ret tt
      | None => ret tt
      end) self).
  unfold bind at 1. cbn [get_priv]. rewrite Hprog. cbn [is_null when].
  unfold bind at 1. cbn [ret]. unfold bind at 1. cbn [get_priv].
  rewrite Hprog, Hld. cbn [negb]. unfold bind at 1. cbn [modify_priv].
  set (marked := mkScript (set_loaded true (priv self)) (trace self)).
  assert (Hm_ctx : context (priv marked) <> None) by (cbn; assumption).
  assert (Hbody :
    (call EvRun ;; Script_Run (gum_script_load (S fuel)) compiled)
      (add_events marked enter_events) =
    Done (script_outcome compiled)
      (add_events (add_events (add_events marked enter_events) [EvRun])
         (map EvEmitMessage (script_sends compiled)))).
  { unfold bind at 1. cbn [call].
    apply Script_Run_result.
    - intros s Hs Hp. apply load_again_is_noop; assumption.
    - reflexivity.
    - cbn. rewrite Hprog. discriminate. }
  rewrite (with_ScriptScope_result _ marked _ _ Hm_ctx Hbody).
  unfold add_events, marked. cbn [priv trace].
  repeat rewrite <- app_assoc. reflexivity.
Qed.

(** Load with no compiled program at hand first tries to build one; what
    happens next depends only on the instance the attempt leaves behind. *)
Lemma load_after_rebuild (fuel : nat) (self mid : GumScript)
    (r : bool * option GError) :
  raw_script (priv self) = None ->
  gum_script_create_context false self = Done r mid ->
  gum_script_load (S fuel) self =
  match raw_script (priv mid) with
  | Some _ => gum_script_load (S fuel) mid
  | None => Done tt mid
  end.
Proof.
  intros Hnone Hcreate.
  cbn [gum_script_load]. unfold bind at 1. cbn [get_priv].
  rewrite Hnone. cbn [is_null when]. unfold bind at 1. unfold bind at 1.
  rewrite Hcreate. cbn [ret]. unfold bind at 1. cbn [get_priv].
  destruct (raw_script (priv mid)) as [compiled|] eqn:Hmid; [|reflexivity].
  symmetry. unfold bind at 1. cbn [get_priv]. rewrite Hmid. cbn [is_null when].
  unfold bind at 1. cbn [ret]. unfold bind at 1. cbn [get_priv].
  rewrite Hmid. reflexivity.
Qed.

Lemma from_string_compiled (src : string) (error : bool) (compiled : Script) :
  engine_compile (combined_source src) = CompileOk compiled ->
  let instance :=
    mkScript (mkPriv src true (Some ScriptContext) (Some compiled) false)
      (build_events src) in
  gum_script_from_string src error = Done (Some instance, None) instance.
Proof.
  intros Hc. unfold gum_script_from_string, bind.
  rewrite (create_context_compiled (g_object_new src) error compiled);
    [reflexivity | reflexivity | exact Hc].
Qed.

Lemma from_string_rejected (src : string) (error : bool) (line : Z)
    (exception_str : string) :
  engine_compile (combined_source src) = CompileFail line exception_str ->
  gum_script_from_string src error =
  Done (None,
        g_set_error error
          (mkGError G_IO_ERROR G_IO_ERROR_FAILED
             (script_error_message
                (line - GUM_SCRIPT_RUNTIME_SOURCE_LINE_COUNT) exception_str)))
    (mkScript (mkPriv src false None None false)
       (build_events src ++ teardown_events false)).
Proof.
  intros Hc. unfold gum_script_from_string, bind.
  rewrite (create_context_rejected (g_object_new src) error line exception_str);
    [reflexivity | reflexivity | reflexivity | exact Hc].
Qed.

Lemma count_app (f : Event -> bool) (a b : list Event) :
  count f (a ++ b) = (count f a + count f b)%nat.
Proof. unfold count. rewrite filter_app. apply length_app. Qed.

Lemma count_sends (f : Event -> bool) (msgs : list string) :
  (forall m, f (EvEmitMessage m) = false) ->
  count f (map EvEmitMessage msgs) = 0%nat.
Proof.
  intros Hf. unfold count.
  induction msgs as [|m rest IH]; [reflexivity|].
  cbn [map filter]. rewrite Hf. exact IH.
Qed.

Lemma count_run_leave (caught : TryCatch) :
  count is_run (leave_events caught) = 0%nat.
Proof. destruct caught as [[line exception_str]|]; reflexivity. Qed.




(** ** Creation *)

(** C1.  Called with a place for the error, [gum_script_from_string] on any
    source text answers in exactly one of two ways: a handle and no error, the
    handle holding an execution context and the compiled program and ready to
    be loaded; or no handle and an error whose message reads
    [Script(line N): ] followed by the engine's exception text, where [N] is
    the engine's line minus the bootstrap line count, and then the instance it
    disposed of has neither context nor compiled program.  Nothing keeps [N]
    above zero: it is at least 1 exactly when the engine's line lies past the
    bootstrap lines. *)
Theorem from_string_handle_xor_error (src : string) :
  exists result instance,
    gum_script_from_string src true = Done result instance /\
    ((exists compiled,
         result = (Some instance, None) /\
         engine_compile (combined_source src) = CompileOk compiled /\
         context (priv instance) = Some ScriptContext /\
         raw_script (priv instance) = Some compiled /\
         loaded (priv instance) = false /\
         exists after, gum_script_load 2 instance = Done tt after)
     \/
     (exists line exception_str,
         engine_compile (combined_source src) = CompileFail line exception_str /\
         result =
           (None,
            Some (mkGError G_IO_ERROR G_IO_ERROR_FAILED
                    ("Script(line "
                     ++ string_of_Z (line - GUM_SCRIPT_RUNTIME_SOURCE_LINE_COUNT)
                     ++ "): " ++ exception_str))) /\
         (1 <= line - GUM_SCRIPT_RUNTIME_SOURCE_LINE_COUNT
          <-> GUM_SCRIPT_RUNTIME_SOURCE_LINE_COUNT < line) /\
         context (priv instance) = None /\
         raw_script (priv instance) = None /\
         loaded (priv instance) = false)).
Proof.
  destruct (engine_compile (combined_source src))
    as [compiled|line exception_str] eqn:Hc.
  - pose proof (from_string_compiled src true compiled Hc) as Hok.
    cbv zeta in Hok. eexists. eexists. split; [exact Hok|].
    left. exists compiled. repeat split.
    eexists. apply (load_runs_program 0 _ compiled); cbn; congruence.
  - pose proof (from_string_rejected src true line exception_str Hc) as Hko.
    eexists. eexists. split; [exact Hko|].
    right. exists line, exception_str.
    split; [reflexivity|]. split; [reflexivity|].
    split; [unfold GUM_SCRIPT_RUNTIME_SOURCE_LINE_COUNT; lia|].
    repeat split.
Qed.

(** ** Teardown *)

(** C4.  [gum_script_destroy_context] flushes the core binding, disposes the
    eleven bindings in the reverse of the order in which creation initialised
    them, all inside the entered context, releases the compiled program and
    the context, and finalizes the eleven bindings in the same reverse order
    after the context scope is left. *)
Theorem destroy_context_reverse_order (self : GumScript) (src : string)
    (error : bool) :
  context (priv self) <> None ->
  (exists result instance,
      gum_script_from_string src error = Done result instance /\
      inits_of (trace instance) = binding_init_order) /\
  List.rev binding_init_order =
    [instruction; symbol; stalker; interceptor; socket; file; module;
     thread; process; memory; core] /\
  exists after,
    gum_script_destroy_context self = Done tt after /\
    trace after =
      (trace self
       ++ [EvLock; EvIsolateEnter; EvHandleScopeOpen]
       ++ [EvContextEnter; EvFlush core]
       ++ map EvDispose (List.rev binding_init_order)
       ++ [EvContextExit]
       ++ (if is_null (raw_script (priv self)) then [] else [EvDeleteScript])
       ++ [EvDeleteContext]
       ++ map EvFinalize (List.rev binding_init_order)
       ++ [EvHandleScopeClose; EvIsolateExit; EvUnlock])%list /\
    context (priv after) = None /\
    raw_script (priv after) = None /\
    loaded (priv after) = false.
Proof.
  intros Hctx. split; [|split; [reflexivity|]].
  - destruct (engine_compile (combined_source src))
      as [compiled|line exception_str] eqn:Hc.
    + pose proof (from_string_compiled src error compiled Hc) as Hok.
      cbv zeta in Hok. eexists. eexists. split; [exact Hok|reflexivity].
    + pose proof (from_string_rejected src error line exception_str Hc) as Hko.
      eexists. eexists. split; [exact Hko|reflexivity].
  - eexists. split; [apply destroy_context_result; exact Hctx|].
    cbn [priv trace context raw_script loaded]. repeat split.
    destruct (raw_script (priv self)); reflexivity.
Qed.

(** ** The instance invariant *)

Lemma load_keeps_invariant (fuel : nat) (self : GumScript) :
  lifecycle_ok (priv self) = true ->
  exists after,
    gum_script_load (S (S fuel)) self = Done tt after /\
    lifecycle_ok (priv after) = true.
Proof.
  intros Hinv.
  destruct (raw_script (priv self)) as [compiled|] eqn:Hprog.
  - destruct (loaded (priv self)) eqn:Hld.
    + exists self. split; [|exact Hinv].
      apply load_again_is_noop; [exact Hld | congruence].
    + assert (Hctx : context (priv self) <> None).
      { unfold lifecycle_ok in Hinv. rewrite Hprog in Hinv.
        destruct (context (priv self)); [discriminate | discriminate Hinv]. }
      eexists. split; [apply (load_runs_program fuel self compiled); assumption|].
      unfold lifecycle_ok in *. cbn. rewrite Hprog in *. cbn in *.
      destruct (context (priv self)); [reflexivity | congruence].
  - assert (Hctx : context (priv self) = None).
    { unfold lifecycle_ok in Hinv. rewrite Hprog in Hinv.
      destruct (context (priv self)); [discriminate Hinv | reflexivity]. }
    destruct (engine_compile (combined_source (source (priv self))))
      as [compiled|line exception_str] eqn:Hc.
    + pose proof (create_context_compiled self false compiled Hctx Hc) as Hmid.
      rewrite (load_after_rebuild _ _ _ _ Hprog Hmid). cbn [priv raw_script].
      destruct (loaded (priv self)) eqn:Hld.
      * eexists. split; [apply load_again_is_noop; cbn; congruence|].
        reflexivity.
      * eexists. split;
          [apply (load_runs_program fuel _ compiled); cbn; congruence|].
        reflexivity.
    + pose proof (create_context_rejected self false line exception_str
                    Hctx Hprog Hc) as Hmid.
      rewrite (load_after_rebuild _ _ _ _ Hprog Hmid). cbn [priv raw_script].
      eexists. split; reflexivity.
Qed.

Lemma unload_keeps_invariant (self : GumScript) :
  lifecycle_ok (priv self) = true ->
  exists after,
    gum_script_unload self = Done tt after /\
    lifecycle_ok (priv after) = true /\
    loaded (priv after) = false.
Proof.
  intros Hinv. unfold gum_script_unload, bind. cbn [get_priv].
  destruct (loaded (priv self)) eqn:Hld.
  - cbn [modify_priv].
    rewrite destroy_context_result.
    + eexists. split; [reflexivity|]. split; reflexivity.
    + cbn. unfold lifecycle_ok in Hinv. rewrite Hld in Hinv.
      destruct (context (priv self)), (raw_script (priv self));
        cbn in Hinv; congruence.
  - exists self. repeat split; assumption.
Qed.

(** C5.  Whatever the source text, and from any instance on which the
    invariant holds, each of create, load, unload and dispose returns and
    leaves an instance whose context and compiled program are both there or
    both gone and whose loaded flag is up only with a compiled program. *)
Theorem lifecycle_invariant_kept (self : GumScript) (fuel : nat)
    (src : string) (error : bool) :
  lifecycle_ok (priv self) = true ->
  (exists result instance,
      gum_script_from_string src error = Done result instance /\
      lifecycle_ok (priv instance) = true /\
      (forall handle, fst result = Some handle -> handle = instance)) /\
  (exists after,
      gum_script_load (S (S fuel)) self = Done tt after /\
      lifecycle_ok (priv after) = true) /\
  (exists after,
      gum_script_unload self = Done tt after /\
      lifecycle_ok (priv after) = true) /\
  (exists after,
      gum_script_dispose self = Done tt after /\
      lifecycle_ok (priv after) = true).
Proof.
  intros Hinv. repeat split.
  - destruct (engine_compile (combined_source src))
      as [compiled|line exception_str] eqn:Hc.
    + pose proof (from_string_compiled src error compiled Hc) as Hok.
      cbv zeta in Hok. eexists. eexists. split; [exact Hok|].
      split; [reflexivity|]. cbn. intros handle Hh. congruence.
    + pose proof (from_string_rejected src error line exception_str Hc) as Hko.
      eexists. eexists. split; [exact Hko|].
      split; [reflexivity|]. cbn. discriminate.
  - apply load_keeps_invariant; exact Hinv.
  - destruct (unload_keeps_invariant self Hinv) as (after & Hu & Hok & _).
    exists after. split; assumption.
  - destruct (unload_keeps_invariant self Hinv) as (after & Hu & Hok & _).
    unfold gum_script_dispose, bind. rewrite Hu. cbn [modify_priv].
    eexists. split; [reflexivity|].
    unfold lifecycle_ok in *. cbn. exact Hok.
Qed.

(** ** The execution scope *)

(** C2.  Take any entry into script code made inside an execution scope on an
    instance that has a context.  If the script code ends with an uncaught
    exception, the scope returns normally to the host, leaves the instance's
    fields as the script code left them, and hands exactly one message to the
    message channel: the text
    [{"type":"error","lineNumber":N,"description":"D"}] with [N] the engine's
    line minus the bootstrap line count and [D] the escaped exception text.
    So it is with load: a program that throws leaves the instance loaded, the
    call returns, and the trace ends with the program's own messages, that one
    error message and the closing of the scope. *)
Theorem scope_turns_exception_into_message (body : M TryCatch)
    (self after loadable : GumScript) (compiled : Script) (fuel : nat)
    (line : Z) (exception_str : string) :
  context (priv self) <> None ->
  body (add_events self enter_events) = Done (Some (line, exception_str)) after ->
  context (priv loadable) <> None ->
  raw_script (priv loadable) = Some compiled ->
  loaded (priv loadable) = false ->
  script_outcome compiled = Some (line, exception_str) ->
  let quote := String "034"%char EmptyString in
  let error_message :=
    "{" ++ quote ++ "type" ++ quote ++ ":" ++ quote ++ "error" ++ quote
    ++ "," ++ quote ++ "lineNumber" ++ quote ++ ":"
    ++ string_of_Z (line - GUM_SCRIPT_RUNTIME_SOURCE_LINE_COUNT)
    ++ "," ++ quote ++ "description" ++ quote ++ ":"
    ++ quote ++ g_strescape exception_str ++ quote ++ "}" in
  (exists final,
      with_ScriptScope body self = Done tt final /\
      priv final = priv after /\
      trace final =
        (trace after
         ++ [EvEmitMessage error_message]
         ++ [EvContextExit; EvHandleScopeClose; EvIsolateExit; EvUnlock;
             EvProcessPending])%list /\
      count is_emit (trace final) = S (count is_emit (trace after))) /\
  (exists final,
      gum_script_load (S (S fuel)) loadable = Done tt final /\
      priv final = set_loaded true (priv loadable) /\
      trace final =
        (trace loadable ++ enter_events ++ [EvRun]
         ++ map EvEmitMessage (script_sends compiled)
         ++ [EvEmitMessage error_message]
         ++ [EvContextExit; EvHandleScopeClose; EvIsolateExit; EvUnlock;
             EvProcessPending])%list).
Proof.
  intros Hctx Hbody Hlctx Hprog Hld Hthrows quote error_message.
  assert (Hshape :
    error_json (line - GUM_SCRIPT_RUNTIME_SOURCE_LINE_COUNT)
      (g_strescape exception_str) = error_message) by reflexivity.
  split.
  - eexists. split; [apply (with_ScriptScope_result _ _ _ _ Hctx Hbody)|].
    cbn [add_events priv trace]. split; [reflexivity|].
    unfold leave_events, error_events. rewrite Hshape.
    split; [reflexivity|].
    rewrite count_app. cbn. lia.
  - eexists.
    split; [apply (load_runs_program fuel loadable compiled); assumption|].
    cbn [priv trace]. split; [reflexivity|].
    rewrite Hthrows. unfold leave_events, error_events. rewrite Hshape.
    reflexivity.
Qed.

(** C9.  Take any entry into script code made inside an execution scope on an
    instance that has a context, however the script code ended.  Destroying
    the scope calls the tracer's process-pending hook exactly once, as the
    last thing it does. *)
Theorem scope_always_signals_tracer (body : M TryCatch)
    (self after : GumScript) (caught : TryCatch) :
  context (priv self) <> None ->
  body (add_events self enter_events) = Done caught after ->
  exists final before_hook,
    with_ScriptScope body self = Done tt final /\
    trace final = (trace after ++ before_hook ++ [EvProcessPending])%list /\
    count is_process_pending before_hook = 0%nat /\
    count is_process_pending (before_hook ++ [EvProcessPending]) = 1%nat.
Proof.
  intros Hctx Hbody.
  exists (add_events after (leave_events caught)).
  exists (error_events caught
          ++ [EvContextExit; EvHandleScopeClose; EvIsolateExit; EvUnlock])%list.
  split; [apply (with_ScriptScope_result _ _ _ _ Hctx Hbody)|].
  split; [unfold leave_events; cbn [add_events trace];
          rewrite <- app_assoc; reflexivity|].
  destruct caught as [[line exception_str]|]; split; reflexivity.
Qed.

(** ** Load *)

Lemma count_run_added (compiled : Script) :
  count is_run
    (enter_events ++ [EvRun] ++ map EvEmitMessage (script_sends compiled)
     ++ leave_events (script_outcome compiled)) = 1%nat.
Proof.
  rewrite !count_app, count_run_leave, count_sends by reflexivity.
  reflexivity.
Qed.

(** C3.  On an instance that is not loaded and either holds its compiled
    program, as [gum_script_from_string] returns it, or has been unloaded and
    has a source the engine compiles, two calls of [gum_script_load] in a row
    start the program exactly once; the second call returns the instance
    exactly as the first one left it, trace included. *)
Theorem load_twice_runs_once (self : GumScript) (compiled : Script)
    (fuel1 fuel2 : nat) :
  lifecycle_ok (priv self) = true ->
  loaded (priv self) = false ->
  match raw_script (priv self) with
  | Some held => held = compiled
  | None =>
      engine_compile (combined_source (source (priv self))) = CompileOk compiled
  end ->
  exists once added,
    gum_script_load (S (S fuel1)) self = Done tt once /\
    gum_script_load (S fuel2) once = Done tt once /\
    (gum_script_load (S (S fuel1)) ;; gum_script_load (S fuel2)) self
      = Done tt once /\
    loaded (priv once) = true /\
    raw_script (priv once) = Some compiled /\
    trace once = (trace self ++ added)%list /\
    count is_run added = 1%nat.
Proof.
  intros Hinv Hld Hprog.
  assert (Hfirst : exists once added,
             gum_script_load (S (S fuel1)) self = Done tt once /\
             loaded (priv once) = true /\
             raw_script (priv once) = Some compiled /\
             trace once = (trace self ++ added)%list /\
             count is_run added = 1%nat).
  { destruct (raw_script (priv self)) as [held|] eqn:Hraw.
    - subst held.
      assert (Hctx : context (priv self) <> None).
      { unfold lifecycle_ok in Hinv. rewrite Hraw in Hinv.
        destruct (context (priv self)); [discriminate | discriminate Hinv]. }
      eexists. eexists.
      split; [apply (load_runs_program fuel1 self compiled); assumption|].
      split; [reflexivity|]. split; [exact Hraw|]. split; [reflexivity|].
      apply count_run_added.
    - assert (Hctx : context (priv self) = None).
      { unfold lifecycle_ok in Hinv. rewrite Hraw in Hinv.
        destruct (context (priv self)); [discriminate Hinv | reflexivity]. }
      pose proof (create_context_compiled self false compiled Hctx Hprog)
        as Hmid.
      rewrite (load_after_rebuild _ _ _ _ Hraw Hmid). cbn [priv raw_script].
      eexists. eexists.
      split; [apply (load_runs_program fuel1 _ compiled); cbn; congruence|].
      cbn [priv trace set_loaded loaded raw_script].
      split; [reflexivity|]. split; [reflexivity|].
      split; [rewrite <- app_assoc; reflexivity|].
      rewrite count_app, count_run_added. reflexivity. }
  destruct Hfirst as (once & added & Hload & Hflag & Hheld & Htrace & Hruns).
  assert (Hsecond : gum_script_load (S fuel2) once = Done tt once)
    by (apply load_again_is_noop; [exact Hflag | congruence]).
  exists once, added.
  split; [exact Hload|]. split; [exact Hsecond|].
  split; [unfold bind; rewrite Hload; exact Hsecond|].
  repeat split; assumption.
Qed.

(** C10.  In [gum_script_load] the loaded flag goes up before the program
    starts: the run takes place in the instance with the flag set.  In such an
    instance a call of load, as script code calling back into the host makes
    it, returns at once and changes nothing.  So however many such calls the
    program makes, load starts it once, and the calls leave no mark in the
    trace. *)
Theorem load_sets_flag_before_run (self : GumScript) (compiled : Script)
    (fuel : nat) :
  context (priv self) <> None ->
  raw_script (priv self) = Some compiled ->
  loaded (priv self) = false ->
  gum_script_load (S (S fuel)) self =
    with_ScriptScope
      (call EvRun ;; Script_Run (gum_script_load (S fuel)) compiled)
      (mkScript (set_loaded true (priv self)) (trace self)) /\
  (forall inside,
      loaded (priv inside) = true ->
      raw_script (priv inside) <> None ->
      gum_script_load (S fuel) inside = Done tt inside) /\
  exists final,
    gum_script_load (S (S fuel)) self = Done tt final /\
    loaded (priv final) = true /\
    trace final =
      (trace self ++ enter_events ++ [EvRun]
       ++ map EvEmitMessage (script_sends compiled)
       ++ leave_events (script_outcome compiled))%list /\
    count is_run
      (enter_events ++ [EvRun] ++ map EvEmitMessage (script_sends compiled)
       ++ leave_events (script_outcome compiled)) = 1%nat.
Proof.
  intros Hctx Hprog Hld. split; [|split].
  - cbn [gum_script_load]. unfold bind at 1. cbn [get_priv].
    rewrite Hprog. cbn [is_null when]. unfold bind at 1. cbn [ret].
    unfold bind at 1. cbn [get_priv]. rewrite Hprog, Hld. reflexivity.
  - intros inside Hin Hp. apply load_again_is_noop; assumption.
  - eexists.
    split; [apply (load_runs_program fuel self compiled); assumption|].
    split; [reflexivity|]. split; [reflexivity|].
    apply count_run_added.
Qed.

(** C7.  On an instance with neither context nor compiled program whose
    source the engine rejects, [gum_script_load] builds a context, tears it
    down again and returns normally: no program is started, the instance has
    no context, no compiled program and is not loaded, and the diagnostic is
    lost, since the rebuild is asked to store its error nowhere.  The same
    rebuild asked to store its error would have produced one. *)
Theorem load_swallows_rebuild_error (self : GumScript) (fuel : nat)
    (line : Z) (exception_str : string) :
  context (priv self) = None ->
  raw_script (priv self) = None ->
  engine_compile (combined_source (source (priv self)))
    = CompileFail line exception_str ->
  exists after,
    gum_script_load (S fuel) self = Done tt after /\
    gum_script_create_context false self = Done (false, None) after /\
    gum_script_create_context true self =
      Done (false,
            Some (mkGError G_IO_ERROR G_IO_ERROR_FAILED
                    (script_error_message
                       (line - GUM_SCRIPT_RUNTIME_SOURCE_LINE_COUNT)
                       exception_str)))
        after /\
    count is_run (trace after) = count is_run (trace self) /\
    context (priv after) = None /\
    raw_script (priv after) = None /\
    loaded (priv after) = false.
Proof.
  intros Hctx Hprog Hc.
  pose proof (create_context_rejected self false line exception_str
                Hctx Hprog Hc) as Hquiet.
  pose proof (create_context_rejected self true line exception_str
                Hctx Hprog Hc) as Hloud.
  eexists. split.
  { rewrite (load_after_rebuild _ _ _ _ Hprog Hquiet). reflexivity. }
  split; [exact Hquiet|]. split; [exact Hloud|].
  cbn [priv trace context raw_script loaded]. repeat split.
  rewrite count_app. cbn. lia.
Qed.

(** ** Line numbers *)


(** ** Series of calls *)

Lemma invariant_context_of_script (p : GumScriptPrivate) :
  lifecycle_ok p = true ->
  is_null (context p) = is_null (raw_script p) /\
  (loaded p = true -> raw_script p <> None).
Proof.
  unfold lifecycle_ok. intros H. apply andb_true_iff in H as [Heq Himp].
  split; [apply eqb_prop; exact Heq|].
  intros Hl. rewrite Hl in Himp. destruct (raw_script p); [discriminate|].
  discriminate Himp.
Qed.

(** What one load does, by cases on the instance. *)
Lemma load_effect (fuel : nat) (self : GumScript) :
  lifecycle_ok (priv self) = true ->
  exists after phases,
    gum_script_load (S (S fuel)) self = Done tt after /\
    lifecycle_ok (priv after) = true /\
    source (priv after) = source (priv self) /\
    trace after = (trace self ++ flat_map phase_events phases)%list /\
    phases_fit (has_context self) phases = Some (has_context after) /\
    (phase_runs phases <= 1)%nat.
Proof.
  intros Hinv. destruct (invariant_context_of_script _ Hinv) as [Hsame Hflag].
  unfold has_context.
  destruct (raw_script (priv self)) as [compiled|] eqn:Hprog.
  - destruct (context (priv self)) as [c|] eqn:Hctx; [|discriminate Hsame].
    destruct (loaded (priv self)) eqn:Hld.
    + exists self, [].
      split; [apply load_again_is_noop; [exact Hld | congruence]|].
      rewrite Hctx. cbn. rewrite app_nil_r. repeat split; [exact Hinv | lia].
    + eexists. exists [PhRun compiled].
      split; [apply (load_runs_program fuel self compiled); congruence|].
      cbn [priv trace set_loaded context source flat_map phase_events].
      rewrite Hctx, app_nil_r. repeat split; [|cbn; lia].
      unfold lifecycle_ok. cbn. rewrite Hctx, Hprog. reflexivity.
  - destruct (context (priv self)) as [c|] eqn:Hctx; [discriminate Hsame|].
    assert (Hld : loaded (priv self) = false).
    { destruct (loaded (priv self)); [|reflexivity].
      exfalso. apply Hflag; reflexivity. }
    destruct (engine_compile (combined_source (source (priv self))))
      as [compiled|line exception_str] eqn:Hc.
    + pose proof (create_context_compiled self false compiled Hctx Hc) as Hmid.
      rewrite (load_after_rebuild _ _ _ _ Hprog Hmid). cbn [priv raw_script].
      eexists. exists [PhBuild (source (priv self)); PhRun compiled].
      split; [apply (load_runs_program fuel _ compiled); cbn; congruence|].
      cbn [priv trace set_loaded context source flat_map phase_events].
      rewrite app_nil_r, <- app_assoc. repeat split. cbn; lia.
    + pose proof (create_context_rejected self false line exception_str
                    Hctx Hprog Hc) as Hmid.
      rewrite (load_after_rebuild _ _ _ _ Hprog Hmid). cbn [priv raw_script].
      eexists. exists [PhBuild (source (priv self)); PhTeardown false].
      split; [reflexivity|].
      cbn [priv trace context source flat_map phase_events].
      rewrite app_nil_r. repeat split. cbn; lia.
Qed.

Lemma unload_effect (self : GumScript) :
  lifecycle_ok (priv self) = true ->
  exists after phases,
    gum_script_unload self = Done tt after /\
    lifecycle_ok (priv after) = true /\
    source (priv after) = source (priv self) /\
    trace after = (trace self ++ flat_map phase_events phases)%list /\
    phases_fit (has_context self) phases = Some (has_context after) /\
    phase_runs phases = 0%nat.
Proof.
  intros Hinv. destruct (invariant_context_of_script _ Hinv) as [Hsame Hflag].
  unfold gum_script_unload, bind, has_context. cbn [get_priv].
  destruct (loaded (priv self)) eqn:Hld.
  - specialize (Hflag eq_refl).
    destruct (raw_script (priv self)) as [compiled|] eqn:Hprog; [|congruence].
    destruct (context (priv self)) as [c|] eqn:Hctx; [|discriminate Hsame].
    cbn [modify_priv]. rewrite destroy_context_result by (cbn; congruence).
    eexists. exists [PhTeardown true]. split; [reflexivity|].
    cbn [priv trace set_loaded context source raw_script flat_map
         phase_events is_null negb].
    rewrite Hprog, app_nil_r. repeat split.
  - exists self, []. cbn. rewrite app_nil_r.
    destruct (context (priv self)); repeat split; assumption.
Qed.

Lemma phases_fit_app (phases more : list Phase) (a b c : bool) :
  phases_fit a phases = Some b ->
  phases_fit b more = Some c ->
  phases_fit a (phases ++ more) = Some c.
Proof.
  revert a. induction phases as [|ph rest IH]; intros a Hfirst Hmore.
  - cbn in Hfirst. injection Hfirst as ->. exact Hmore.
  - destruct ph, a; cbn in *; try discriminate; eapply IH; eassumption.
Qed.

(** Whatever series of loads and unloads a host makes on an instance on which
    the invariant holds, every call returns, and all the instance has done to
    the outside is a series of builds, runs and teardowns that fits. *)
Lemma phase_runs_app (phases more : list Phase) :
  phase_runs (phases ++ more) = (phase_runs phases + phase_runs more)%nat.
Proof.
  induction phases as [|ph rest IH]; [reflexivity|].
  destruct ph; cbn; rewrite IH; reflexivity.
Qed.

Lemma host_calls_history (fuel : nat) (cs : list HostCall) :
  forall self,
    lifecycle_ok (priv self) = true ->
    exists final phases,
      host_calls fuel cs self = Done tt final /\
      lifecycle_ok (priv final) = true /\
      source (priv final) = source (priv self) /\
      trace final = (trace self ++ flat_map phase_events phases)%list /\
      phases_fit (has_context self) phases = Some (has_context final) /\
      (phase_runs phases <= loads_in cs)%nat.
Proof.
  induction cs as [|c rest IH]; intros self Hinv.
  - exists self, []. cbn. rewrite app_nil_r. repeat split; [exact Hinv | lia].
  - assert (Hstep : exists after phases,
               host_call fuel c self = Done tt after /\
               lifecycle_ok (priv after) = true /\
               source (priv after) = source (priv self) /\
               trace after = (trace self ++ flat_map phase_events phases)%list /\
               phases_fit (has_context self) phases
                 = Some (has_context after) /\
               (phase_runs phases <= loads_in [c])%nat).
    { destruct c.
      - apply load_effect; exact Hinv.
      - destruct (unload_effect self Hinv)
          as (after & phases & H1 & H2 & H3 & H4 & H5 & H6).
        exists after, phases. repeat split; try assumption. cbn; lia. }
    destruct Hstep
      as (after & phases & Hcall & Hinv' & Hsrc & Htrace & Hfit & Hruns).
    destruct (IH after Hinv')
      as (final & more & Hrest & Hinv'' & Hsrc' & Htrace' & Hfit' & Hruns').
    exists final, (phases ++ more)%list.
    split; [cbn [host_calls]; unfold bind; rewrite Hcall; exact Hrest|].
    split; [exact Hinv''|]. split; [congruence|].
    split; [rewrite Htrace', Htrace, flat_map_app, app_assoc; reflexivity|].
    split; [eapply phases_fit_app; eassumption|].
    rewrite phase_runs_app. destruct c; cbn in *; lia.
Qed.

Lemma from_string_history (src : string) (error : bool) :
  exists result instance phases,
    gum_script_from_string src error = Done result instance /\
    (fst result = Some instance \/ fst result = None) /\
    lifecycle_ok (priv instance) = true /\
    loaded (priv instance) = false /\
    trace instance = flat_map phase_events phases /\
    phases_fit false phases = Some (has_context instance) /\
    phase_runs phases = 0%nat.
Proof.
  destruct (engine_compile (combined_source src))
    as [compiled|line exception_str] eqn:Hc.
  - pose proof (from_string_compiled src error compiled Hc) as Hok.
    cbv zeta in Hok. eexists. eexists. exists [PhBuild src].
    split; [exact Hok|]. cbn [fst priv trace loaded flat_map phase_events has_context context is_null negb phases_fit]. rewrite ?app_nil_r. repeat split.
    left; reflexivity.
  - pose proof (from_string_rejected src error line exception_str Hc) as Hko.
    eexists. eexists. exists [PhBuild src; PhTeardown false].
    split; [exact Hko|]. cbn [fst priv trace loaded flat_map phase_events has_context context is_null negb phases_fit]. rewrite ?app_nil_r. repeat split.
    right; reflexivity.
Qed.

(** *** The hooks of the bindings, phase by phase *)

Lemma count_hooks_leave (f : Event -> bool) (caught : TryCatch) :
  (forall m, f (EvEmitMessage m) = false) ->
  f EvContextExit = false -> f EvHandleScopeClose = false ->
  f EvIsolateExit = false -> f EvUnlock = false ->
  f EvProcessPending = false ->
  count f (leave_events caught) = 0%nat.
Proof.
  intros Hm H1 H2 H3 H4 H5. unfold leave_events, error_events, count.
  destruct caught as [[line exception_str]|]; cbn [app filter];
    rewrite ?Hm, H1, H2, H3, H4, H5; reflexivity.
Qed.

Lemma count_hooks_run (f : Event -> bool) (compiled : Script) :
  (forall m, f (EvEmitMessage m) = false) ->
  count f enter_events = 0%nat -> f EvRun = false ->
  f EvContextExit = false -> f EvHandleScopeClose = false ->
  f EvIsolateExit = false -> f EvUnlock = false ->
  f EvProcessPending = false ->
  count f (run_events compiled) = 0%nat.
Proof.
  intros Hm He Hr H1 H2 H3 H4 H5. unfold run_events.
  rewrite !count_app, He, count_sends, count_hooks_leave by assumption.
  unfold count. cbn [filter]. rewrite Hr. reflexivity.
Qed.

Lemma phase_hook_counts (b : Binding) (ph : Phase) :
  count (is_init b) (phase_events ph)
    = (match ph with PhBuild _ => 1 | _ => 0 end)%nat /\
  count (is_realize b) (phase_events ph)
    = (match ph with PhBuild _ => 1 | _ => 0 end)%nat /\
  count (is_dispose b) (phase_events ph)
    = (match ph with PhTeardown _ => 1 | _ => 0 end)%nat /\
  count (is_finalize b) (phase_events ph)
    = (match ph with PhTeardown _ => 1 | _ => 0 end)%nat.
Proof.
  destruct ph as [src|compiled|had_script]; cbn [phase_events].
  - destruct b; repeat split; reflexivity.
  - repeat split; apply count_hooks_run; reflexivity.
  - destruct b, had_script; repeat split; reflexivity.
Qed.

Lemma accounted_after_phases (phases : list Phase) :
  forall t before after,
    accounted_at t before ->
    phases_fit before phases = Some after ->
    accounted_at (t ++ flat_map phase_events phases) after.
Proof.
  induction phases as [|ph rest IH]; intros t before after Hacc Hfit.
  - cbn in *. rewrite app_nil_r. injection Hfit as <-. exact Hacc.
  - cbn [flat_map]. rewrite app_assoc.
    assert (Hstep : exists mid,
               accounted_at (t ++ phase_events ph) mid /\
               phases_fit mid rest = Some after).
    { destruct ph as [src|compiled|had_script], before;
        cbn [phases_fit] in Hfit; try discriminate;
        eexists; (split; [|exact Hfit]); intros b;
        destruct (Hacc b) as (Hr & Hf & Hi);
        match goal with
        | |- context [phase_events ?p] =>
            destruct (phase_hook_counts b p) as (Ci & Cr & Cd & Cf)
        end;
        rewrite !count_app, Ci, Cr, Cd, Cf; lia. }
    destruct Hstep as (mid & Hmid & Hrest).
    exact (IH _ _ _ Hmid Hrest).
Qed.

Lemma accounted_at_instance (self : GumScript) :
  bindings_accounted self <-> accounted_at (trace self) (has_context self).
Proof.
  unfold bindings_accounted, accounted_at, has_context.
  destruct (context (priv self)); cbn; reflexivity.
Qed.

(** *** The engine scopes, phase by phase *)

Lemma scopes_after_app (a b : list Event) :
  forall stack,
    scopes_after stack (a ++ b) =
    match scopes_after stack a with
    | Some stack' => scopes_after stack' b
    | None => None
    end.
Proof.
  induction a as [|e a IH]; intros stack; [reflexivity|].
  cbn [app scopes_after]. destruct (scope_step stack e); [apply IH|reflexivity].
Qed.

Lemma scopes_after_sends (msgs : list string) (outer : list EngineScope) :
  scopes_after (InContext :: outer) (map EvEmitMessage msgs)
  = Some (InContext :: outer).
Proof. induction msgs as [|m rest IH]; [reflexivity | exact IH]. Qed.

Lemma scopes_after_phase (ph : Phase) :
  scopes_after [] (phase_events ph) = Some [].
Proof.
  destruct ph as [src|compiled|had_script]; cbn [phase_events].
  - reflexivity.
  - unfold run_events.
    rewrite scopes_after_app. cbn [enter_events scopes_after scope_step].
    rewrite scopes_after_app. cbn [scopes_after scope_step].
    rewrite scopes_after_app, scopes_after_sends.
    destruct (script_outcome compiled) as [[line exception_str]|]; reflexivity.
  - destruct had_script; reflexivity.
Qed.

Lemma scopes_respected_after_phases (phases : list Phase) :
  forall t,
    scopes_respected t = true ->
    scopes_respected (t ++ flat_map phase_events phases) = true.
Proof.
  induction phases as [|ph rest IH]; intros t Ht.
  - cbn. rewrite app_nil_r. exact Ht.
  - cbn [flat_map]. rewrite app_assoc. apply IH.
    unfold scopes_respected in *. rewrite scopes_after_app.
    destruct (scopes_after [] t) as [[|sc stack]|]; try discriminate.
    rewrite scopes_after_phase. reflexivity.
Qed.

(** ** Further properties of the lifecycle *)

(** X1.  Creation never starts the program: whatever the source text and
    whether or not the caller gave a place for the error, the trace of
    [gum_script_from_string] begins with the build, in which the bindings are
    realized in the order they were initialised in, shows no run, no message
    and no call of the tracer hook, and the instance is not loaded.  The
    handle and the instance are the same with and without a place for the
    error. *)
Theorem from_string_builds_without_running (src : string) (error : bool) :
  exists result instance rest,
    gum_script_from_string src error = Done result instance /\
    trace instance = (build_events src ++ rest)%list /\
    (rest = [] /\ fst result = Some instance \/
     rest = teardown_events false /\ fst result = None) /\
    inits_of (trace instance) = binding_init_order /\
    realizes_of (trace instance) = binding_init_order /\
    count is_run (trace instance) = 0%nat /\
    count is_emit (trace instance) = 0%nat /\
    count is_process_pending (trace instance) = 0%nat /\
    loaded (priv instance) = false /\
    exists result',
      gum_script_from_string src (negb error) = Done result' instance /\
      fst result' = fst result.
Proof.
  destruct (engine_compile (combined_source src))
    as [compiled|line exception_str] eqn:Hc.
  - pose proof (from_string_compiled src error compiled Hc) as Hok.
    pose proof (from_string_compiled src (negb error) compiled Hc) as Hok'.
    cbv zeta in Hok, Hok'. eexists. eexists. exists [].
    split; [exact Hok|]. cbn [priv trace loaded fst]. rewrite app_nil_r.
    split; [reflexivity|]. split; [left; split; reflexivity|].
    repeat (split; [reflexivity|]).
    eexists. split; [exact Hok' | reflexivity].
  - pose proof (from_string_rejected src error line exception_str Hc) as Hko.
    pose proof (from_string_rejected src (negb error) line exception_str Hc)
      as Hko'.
    eexists. eexists. exists (teardown_events false).
    split; [exact Hko|]. cbn [priv trace loaded fst].
    split; [reflexivity|]. split; [right; split; reflexivity|].
    repeat (split; [reflexivity|]).
    eexists. split; [exact Hko' | reflexivity].
Qed.

(** X2.  Whatever the source text, and whatever series of loads and unloads
    the host makes on the handle creation returned: no assertion fails, every
    call returns, the invariant holds at the end, and what the instance has
    done to the outside since it was made is a series of builds, runs and
    teardowns in which a build only happens without a context and a run or a
    teardown only with one. *)
Theorem host_calls_never_fatal (src : string) (error : bool) (fuel : nat)
    (cs : list HostCall) :
  exists result instance,
    gum_script_from_string src error = Done result instance /\
    forall handle,
      fst result = Some handle ->
      exists final phases,
        host_calls fuel cs handle = Done tt final /\
        lifecycle_ok (priv final) = true /\
        source (priv final) = src /\
        trace final = flat_map phase_events phases /\
        phases_fit false phases = Some (has_context final).
Proof.
  destruct (from_string_history src error)
    as (result & instance & built & Hcreate & Hhandle & Hinv & _ & Htrace
        & Hfit & _).
  exists result, instance. split; [exact Hcreate|].
  intros handle Hh.
  assert (handle = instance) as ->.
  { destruct Hhandle as [Hs|Hn]; congruence. }
  destruct (host_calls_history fuel cs instance Hinv)
    as (final & phases & Hcalls & Hinv' & Hsrc & Htrace' & Hfit' & _).
  exists final, (built ++ phases)%list.
  split; [exact Hcalls|]. split; [exact Hinv'|].
  split.
  { rewrite Hsrc.
    destruct (engine_compile (combined_source src)) as [c|l e] eqn:Hc.
    - rewrite (from_string_compiled src error c Hc) in Hcreate.
      injection Hcreate as _ <-. reflexivity.
    - rewrite (from_string_rejected src error l e Hc) in Hcreate.
      injection Hcreate as <- _. discriminate Hh. }
  split; [rewrite Htrace', Htrace, flat_map_app; reflexivity|].
  eapply phases_fit_app; eassumption.
Qed.

(** X3.  Whatever the source text and the series of loads and unloads that
    follows creation, at the end every binding has been realized as often as
    initialised and finalized as often as disposed, and it has been
    initialised once more than finalized exactly when the instance has a
    context: nothing is initialised twice over, and nothing stays initialised
    once the context is gone. *)
Theorem bindings_live_exactly_with_context (src : string) (error : bool)
    (fuel : nat) (cs : list HostCall) :
  exists result instance,
    gum_script_from_string src error = Done result instance /\
    bindings_accounted instance /\
    forall handle,
      fst result = Some handle ->
      exists final,
        host_calls fuel cs handle = Done tt final /\
        bindings_accounted final.
Proof.
  destruct (from_string_history src error)
    as (result & instance & built & Hcreate & Hhandle & Hinv & _ & Htrace
        & Hfit & _).
  assert (Hstart : accounted_at [] false).
  { intros b. repeat split. }
  assert (Hacc : accounted_at (trace instance) (has_context instance)).
  { rewrite Htrace.
    exact (accounted_after_phases built [] false _ Hstart Hfit). }
  exists result, instance. split; [exact Hcreate|].
  split; [apply accounted_at_instance; exact Hacc|].
  intros handle Hh.
  assert (handle = instance) as ->.
  { destruct Hhandle as [Hs|Hn]; congruence. }
  destruct (host_calls_history fuel cs instance Hinv)
    as (final & phases & Hcalls & _ & _ & Htrace' & Hfit' & _).
  exists final. split; [exact Hcalls|].
  apply accounted_at_instance. rewrite Htrace'.
  exact (accounted_after_phases phases _ _ _ Hacc Hfit').
Qed.

(** X4.  Whatever the source text and the series of loads and unloads that
    follows creation, every scope the code opens is closed again, innermost
    first, before the call returns, so no call returns with the lock held;
    init and finalize hooks are called inside a handle scope and outside any
    context, realize, flush and dispose hooks, the compiler, the program and
    the message channel inside an entered context, and the tracer hook with
    the lock released. *)
Theorem engine_scopes_respected (src : string) (error : bool) (fuel : nat)
    (cs : list HostCall) :
  exists result instance,
    gum_script_from_string src error = Done result instance /\
    scopes_respected (trace instance) = true /\
    forall handle,
      fst result = Some handle ->
      exists final,
        host_calls fuel cs handle = Done tt final /\
        scopes_respected (trace final) = true.
Proof.
  destruct (from_string_history src error)
    as (result & instance & built & Hcreate & Hhandle & Hinv & _ & Htrace
        & _).
  assert (Hok : scopes_respected (trace instance) = true).
  { rewrite Htrace.
    exact (scopes_respected_after_phases built [] eq_refl). }
  exists result, instance. split; [exact Hcreate|]. split; [exact Hok|].
  intros handle Hh.
  assert (handle = instance) as ->.
  { destruct Hhandle as [Hs|Hn]; congruence. }
  destruct (host_calls_history fuel cs instance Hinv)
    as (final & phases & Hcalls & _ & _ & Htrace' & _).
  exists final. split; [exact Hcalls|].
  rewrite Htrace'. apply scopes_respected_after_phases. exact Hok.
Qed.

Lemma phase_run_counts (phases : list Phase) :
  count is_run (flat_map phase_events phases) = phase_runs phases /\
  count is_process_pending (flat_map phase_events phases) = phase_runs phases.
Proof.
  induction phases as [|ph rest [IHr IHp]]; [split; reflexivity|].
  cbn [flat_map]. rewrite !count_app, IHr, IHp.
  destruct ph as [src|compiled|had_script]; cbn [phase_events phase_runs].
  - split; reflexivity.
  - split.
    + unfold run_events. rewrite count_run_added. reflexivity.
    + unfold run_events. rewrite !count_app, count_sends by reflexivity.
      destruct (script_outcome compiled) as [[line exception_str]|];
        reflexivity.
  - destruct had_script; split; reflexivity.
Qed.

(** X5.  Whatever the source text and the series of loads and unloads that
    follows creation, the tracer hook has been called exactly as often as
    the program was started, and the program was started at most once per
    load. *)
Theorem tracer_signalled_once_per_run (src : string) (error : bool)
    (fuel : nat) (cs : list HostCall) :
  exists result instance,
    gum_script_from_string src error = Done result instance /\
    forall handle,
      fst result = Some handle ->
      exists final,
        host_calls fuel cs handle = Done tt final /\
        count is_process_pending (trace final) = count is_run (trace final) /\
        (count is_run (trace final) <= loads_in cs)%nat.
Proof.
  destruct (from_string_history src error)
    as (result & instance & built & Hcreate & Hhandle & Hinv & _ & Htrace
        & _ & Hnone).
  exists result, instance. split; [exact Hcreate|].
  intros handle Hh.
  assert (handle = instance) as ->.
  { destruct Hhandle as [Hs|Hn]; congruence. }
  destruct (host_calls_history fuel cs instance Hinv)
    as (final & phases & Hcalls & _ & _ & Htrace' & _ & Hruns).
  exists final. split; [exact Hcalls|].
  rewrite Htrace', Htrace, !count_app.
  destruct (phase_run_counts built) as [-> ->].
  destruct (phase_run_counts phases) as [-> ->].
  rewrite Hnone. split; [reflexivity | exact Hruns].
Qed.

(** X6.  Unloading twice is unloading once, disposing twice is disposing
    once, and disposing after an unload is disposing: on every instance,
    whatever its state, the second call finds nothing left to do. *)
Theorem unload_and_dispose_idempotent (self : GumScript) :
  (gum_script_unload ;; gum_script_unload) self = gum_script_unload self /\
  (gum_script_dispose ;; gum_script_dispose) self = gum_script_dispose self /\
  (gum_script_unload ;; gum_script_dispose) self = gum_script_dispose self.
Proof.
  open_instance self.
  destruct ld, ctx as [c|], prog as [compiled|]; repeat split; reflexivity.
Qed.

(** X7.  Disposing tears the context down only when the instance is loaded.
    A loaded instance ends without context and compiled program, its
    bindings disposed and finalized; an instance that is not loaded, such as
    one created and never loaded, keeps its context and its compiled program,
    and no hook of any binding is called. *)
Theorem dispose_tears_down_only_when_loaded (self : GumScript) :
  lifecycle_ok (priv self) = true ->
  exists final,
    g_object_unref self = Done tt final /\
    isolate (priv final) = false /\
    loaded (priv final) = false /\
    if loaded (priv self)
    then context (priv final) = None /\
         raw_script (priv final) = None /\
         trace final = (trace self ++ teardown_events true)%list
    else context (priv final) = context (priv self) /\
         raw_script (priv final) = raw_script (priv self) /\
         trace final = trace self.
Proof.
  intros Hinv. destruct (invariant_context_of_script _ Hinv) as [Hsame Hflag].
  unfold g_object_unref, gum_script_dispose, gum_script_unload, bind.
  cbn [get_priv]. destruct (loaded (priv self)) eqn:Hld.
  - specialize (Hflag eq_refl).
    destruct (raw_script (priv self)) as [compiled|] eqn:Hprog; [|congruence].
    destruct (context (priv self)) as [c|] eqn:Hctx; [|discriminate Hsame].
    cbn [modify_priv]. rewrite destroy_context_result by (cbn; congruence).
    cbn [priv trace set_loaded raw_script is_null negb modify_priv].
    rewrite Hprog. eexists. split; [reflexivity|]. repeat split.
  - cbn [ret modify_priv]. eexists. split; [reflexivity|].
    cbn. repeat split. exact Hld.
Qed.

(** X8.  Unloading a loaded instance and loading it again tears the context
    down, builds a fresh one from the same source, compiles again and runs
    the program again from the top. *)
Theorem reload_runs_program_again (self : GumScript) (fuel : nat)
    (compiled : Script) :
  lifecycle_ok (priv self) = true ->
  loaded (priv self) = true ->
  engine_compile (combined_source (source (priv self))) = CompileOk compiled ->
  exists final,
    (gum_script_unload ;; gum_script_load (S (S fuel))) self = Done tt final /\
    trace final =
      (trace self ++ teardown_events true
       ++ build_events (source (priv self)) ++ run_events compiled)%list /\
    context (priv final) = Some ScriptContext /\
    raw_script (priv final) = Some compiled /\
    loaded (priv final) = true.
Proof.
  intros Hinv Hld Hc.
  destruct (invariant_context_of_script _ Hinv) as [Hsame Hflag].
  specialize (Hflag Hld).
  destruct (raw_script (priv self)) as [held|] eqn:Hprog; [|congruence].
  destruct (context (priv self)) as [c|] eqn:Hctx; [|discriminate Hsame].
  unfold bind at 1. unfold gum_script_unload, bind at 1. cbn [get_priv].
  rewrite Hld. unfold bind at 1. cbn [modify_priv].
  rewrite destroy_context_result by (cbn; congruence).
  cbn [priv trace set_loaded raw_script source isolate is_null negb].
  rewrite Hprog. cbn [is_null negb].
  set (bare := mkScript _ _).
  pose proof (create_context_compiled bare false compiled eq_refl Hc) as Hmid.
  rewrite (load_after_rebuild (S fuel) bare _ _ eq_refl Hmid).
  cbn [priv raw_script].
  eexists.
  split; [apply (load_runs_program fuel _ compiled); cbn; congruence|].
  unfold bare, run_events. cbn [priv trace set_loaded context raw_script
                                loaded source].
  repeat rewrite <- app_assoc. repeat split.
Qed.

(** X9.  On an instance with neither context nor compiled program whose
    source the engine rejects, every load makes the whole attempt again:
    two loads build and tear down twice, start nothing, and leave the
    instance as it was. *)
Theorem load_retries_failed_rebuild (self : GumScript) (fuel1 fuel2 : nat)
    (line : Z) (exception_str : string) :
  context (priv self) = None ->
  raw_script (priv self) = None ->
  engine_compile (combined_source (source (priv self)))
    = CompileFail line exception_str ->
  exists final,
    (gum_script_load (S fuel1) ;; gum_script_load (S fuel2)) self
      = Done tt final /\
    trace final =
      (trace self
       ++ (build_events (source (priv self)) ++ teardown_events false)
       ++ (build_events (source (priv self)) ++ teardown_events false))%list /\
    priv final =
      mkPriv (source (priv self)) (isolate (priv self)) None None false /\
    count is_run (trace final) = count is_run (trace self).
Proof.
  intros Hctx Hprog Hc.
  pose proof (create_context_rejected self false line exception_str
                Hctx Hprog Hc) as Hfirst.
  unfold bind at 1.
  rewrite (load_after_rebuild _ _ _ _ Hprog Hfirst). cbn [priv raw_script].
  set (mid := mkScript _ _).
  pose proof (create_context_rejected mid false line exception_str
                eq_refl eq_refl Hc) as Hsecond.
  rewrite (load_after_rebuild fuel2 mid _ _ eq_refl Hsecond).
  cbn [priv raw_script].
  eexists. split; [reflexivity|].
  unfold mid. cbn [priv trace source isolate].
  split; [repeat rewrite <- app_assoc; reflexivity|].
  split; [reflexivity|].
  rewrite !count_app. cbn. lia.
Qed.

End Host.

(** ** The debug bridge *)

Lemma notify_count_app (release : GDestroyNotify) (data : gpointer)
    (a b : list DebugEvent) :
  notify_count release data (a ++ b)
  = (notify_count release data a + notify_count release data b)%nat.
Proof. unfold notify_count. rewrite filter_app. apply length_app. Qed.

(** C8.  Registering a handler [h] with its datum and release callback and
    then registering none: the second call invokes the release callback of
    [h] on its datum exactly once, removes the engine's debug-message hook,
    drops the reference to the debug context and clears the three statics.
    And after any call the registered handler is the one just passed: what
    was registered before is uninstalled, its release callback invoked if it
    had one, so that there is never more than one. *)
Theorem set_debug_handler_releases_once (d : DebugBridge)
    (h : GumScriptDebugMessageHandler) (data : gpointer)
    (release : GDestroyNotify)
    (func' : option GumScriptDebugMessageHandler) (data' : gpointer)
    (notify' : option GDestroyNotify) :
  let registered :=
    gum_script_set_debug_message_handler (Some h) data (Some release) d in
  let cleared :=
    gum_script_set_debug_message_handler None data' notify' registered in
  let replaced :=
    gum_script_set_debug_message_handler func' data' notify' registered in
  (gum_debug_handler registered = Some h /\
   gum_debug_data registered = data /\
   gum_debug_notify registered = Some release /\
   gum_debug_context registered = Some DebugContext /\
   engine_message_handler registered = Some gum_script_on_debug_message) /\
  (debug_trace cleared =
     (debug_trace registered ++ scope_open_events
      ++ [DbDeleteContext; DbSetMessageHandler None; DbNotify release data]
      ++ scope_close_events)%list /\
   notify_count release data (debug_trace cleared)
     = S (notify_count release data (debug_trace registered)) /\
   gum_debug_handler cleared = None /\
   gum_debug_data cleared = 0 /\
   gum_debug_notify cleared = None /\
   gum_debug_context cleared = None /\
   engine_message_handler cleared = None) /\
  (gum_debug_handler replaced = func' /\
   debug_trace replaced =
     (debug_trace registered ++ scope_open_events
      ++ [DbDeleteContext; DbSetMessageHandler None; DbNotify release data]
      ++ match func' with
         | Some _ => [DbSetMessageHandler (Some gum_script_on_debug_message);
                      DbGetDebugContext]
         | None => []
         end
      ++ scope_close_events)%list /\
   notify_count release data (debug_trace replaced)
     = S (notify_count release data (debug_trace registered)) /\
   (gum_debug_context replaced <> None <-> func' <> None) /\
   (engine_message_handler replaced <> None <-> func' <> None)).
Proof.
  intros registered cleared replaced.
  assert (Hreg :
    gum_debug_handler registered = Some h /\
    gum_debug_data registered = data /\
    gum_debug_notify registered = Some release /\
    gum_debug_context registered = Some DebugContext /\
    engine_message_handler registered = Some gum_script_on_debug_message).
  { unfold registered, gum_script_set_debug_message_handler.
    destruct d as [h0 data0 n0 c0 e0 t0].
    destruct h0, c0, n0; cbn; repeat split. }
  destruct Hreg as (Hh & Hd & Hn & Hc & He).
  split; [repeat split; assumption|].
  split.
  - unfold cleared, gum_script_set_debug_message_handler.
    destruct registered as [h1 data1 n1 c1 e1 t1]. cbn in Hh, Hd, Hn, Hc, He.
    subst. cbn. repeat rewrite <- app_assoc. cbn.
    repeat split.
    rewrite notify_count_app. unfold notify_count at 2. cbn [filter is_notify].
    rewrite Nat.eqb_refl, Z.eqb_refl. cbn. lia.
  - unfold replaced, gum_script_set_debug_message_handler.
    destruct registered as [h1 data1 n1 c1 e1 t1]. cbn in Hh, Hd, Hn, Hc, He.
    subst. destruct func' as [f|]; cbn; repeat rewrite <- app_assoc; cbn.
    + split; [reflexivity|]. split; [reflexivity|]. split.
      * rewrite notify_count_app. unfold notify_count at 2.
        cbn [filter is_notify]. rewrite Nat.eqb_refl, Z.eqb_refl. cbn. lia.
      * split; split; intros _; discriminate.
    + split; [reflexivity|]. split; [reflexivity|]. split.
      * rewrite notify_count_app. unfold notify_count at 2.
        cbn [filter is_notify]. rewrite Nat.eqb_refl, Z.eqb_refl. cbn. lia.
      * split; split; intros H; congruence.
Qed.

(** ** Series of registrations *)

Lemma notifications_app (a b : list DebugEvent) :
  notifications (a ++ b) = (notifications a ++ notifications b)%list.
Proof.
  induction a as [|e a IH]; [reflexivity|].
  destruct e; cbn [app notifications]; rewrite IH; reflexivity.
Qed.

(** One call releases what was registered, and owes the new registration its
    release. *)
Lemma register_debug_effect (r : DebugRegistration) (d : DebugBridge) :
  notifications (debug_trace (register_debug r d))
    = (notifications (debug_trace d) ++ release_pending d)%list /\
  release_pending (register_debug r d) = release_due r /\
  gum_debug_handler (register_debug r d) = reg_func r /\
  (debug_consistent d = true -> debug_consistent (register_debug r d) = true).
Proof.
  destruct r as [func data notify]. destruct d as [h0 data0 n0 c0 e0 t0].
  unfold register_debug, gum_script_set_debug_message_handler,
    release_pending, release_due, debug_consistent.
  destruct h0 as [h|], n0 as [n|], c0 as [c|], func as [f|], notify as [m|];
    cbn; rewrite ?notifications_app; cbn; rewrite ?app_nil_r;
    repeat split; try reflexivity; intros H; try exact H;
    try discriminate H.
Qed.

Lemma register_all_effect (rs : list DebugRegistration) :
  forall d,
    (notifications (debug_trace (register_all rs d))
     ++ release_pending (register_all rs d))%list
    = (notifications (debug_trace d) ++ release_pending d
       ++ flat_map release_due rs)%list /\
    (debug_consistent d = true ->
     debug_consistent (register_all rs d) = true).
Proof.
  induction rs as [|r rest IH]; intros d.
  - cbn. rewrite app_nil_r. split; [reflexivity | trivial].
  - cbn [register_all fold_left flat_map].
    destruct (register_debug_effect r d) as (Hn & Hp & _ & Hc).
    destruct (IH (register_debug r d)) as (Hn' & Hc').
    unfold register_all in *. rewrite Hn', Hn, Hp.
    split; [repeat rewrite <- app_assoc; reflexivity|].
    intros H. apply Hc', Hc, H.
Qed.

(** X10.  From the start of the program on, whatever series of registrations
    is made, a handler is registered exactly when the engine holds the
    dispatcher as its hook and the reference to the debug context is kept,
    and the handler registered is the one of the last call. *)
Theorem debug_bridge_stays_consistent (rs : list DebugRegistration)
    (r : DebugRegistration) :
  debug_consistent (register_all rs debug_bridge_at_start) = true /\
  gum_debug_handler (register_all (rs ++ [r]) debug_bridge_at_start)
    = reg_func r /\
  (gum_debug_context (register_all (rs ++ [r]) debug_bridge_at_start) <> None
   <-> reg_func r <> None) /\
  (engine_message_handler (register_all (rs ++ [r]) debug_bridge_at_start)
     <> None
   <-> reg_func r <> None).
Proof.
  assert (Hall : forall qs,
             debug_consistent (register_all qs debug_bridge_at_start) = true).
  { intros qs. apply (register_all_effect qs debug_bridge_at_start).
    reflexivity. }
  split; [apply Hall|].
  specialize (Hall (rs ++ [r])%list).
  unfold register_all in *. rewrite fold_left_app in *. cbn [fold_left] in *.
  set (d := fold_left _ rs _) in *.
  destruct (register_debug_effect r d) as (_ & _ & Hh & _).
  split; [exact Hh|].
  unfold debug_consistent in Hall. rewrite Hh in Hall.
  destruct (reg_func r) as [f|];
    destruct (gum_debug_context (register_debug r d)),
             (engine_message_handler (register_debug r d));
    cbn in Hall; try discriminate Hall;
    split; split; intros H; congruence.
Qed.

(** X11.  After any series of registrations closed by a call that registers
    no handler, the release callbacks invoked are, in order and each once,
    the one owed to what was registered at first and the ones of the
    registrations made; a registration that passed no handler or no release
    callback has nothing invoked, even if it passed a datum. *)
Theorem debug_releases_each_registration_once (rs : list DebugRegistration)
    (d : DebugBridge) (data : gpointer) (notify : option GDestroyNotify) :
  let cleared :=
    register_debug (mkRegistration None data notify) (register_all rs d) in
  notifications (debug_trace cleared)
    = (notifications (debug_trace d) ++ release_pending d
       ++ flat_map release_due rs)%list /\
  release_pending cleared = [] /\
  gum_debug_handler cleared = None.
Proof.
  intros cleared. unfold cleared.
  destruct (register_debug_effect (mkRegistration None data notify)
              (register_all rs d)) as (Hn & Hp & Hh & _).
  destruct (register_all_effect rs d) as (Hall & _).
  rewrite Hn, Hall. repeat split; assumption.
Qed.

Section DebugTraffic.

Variable g_utf8_to_utf16 : string -> option (list Z).
Variable engine_debug_replies : list Z -> list string.

(** X12.  From the start of the program on, after any series of
    registrations, a debug message of the engine goes to the handler of the
    last registration with the datum of that registration, and is not
    dispatched at all when that registration passed no handler or none was
    ever made: the dispatcher is never entered without a handler.  Posting a
    debug command is fatal when no handler is registered or the text is not
    UTF-8, and otherwise sends the command and has every reply handled by
    that same handler. *)
Theorem debug_traffic_reaches_last_handler (rs : list DebugRegistration)
    (r : DebugRegistration) (json message : string) :
  let bridge := register_all (rs ++ [r]) debug_bridge_at_start in
  engine_delivers json bridge =
    match reg_func r with
    | Some handler => Handled handler json (reg_data r)
    | None => NotHooked
    end /\
  gum_script_post_debug_message g_utf8_to_utf16 engine_debug_replies
    message bridge =
    match reg_func r, g_utf8_to_utf16 message with
    | Some handler, Some command =>
        Posted command
          (map (fun reply => Handled handler reply (reg_data r))
             (engine_debug_replies command))
    | _, _ => PostFatal
    end /\
  engine_delivers json debug_bridge_at_start = NotHooked /\
  gum_script_post_debug_message g_utf8_to_utf16 engine_debug_replies
    message debug_bridge_at_start = PostFatal.
Proof.
  intros bridge.
  assert (Hcons : debug_consistent
                    (register_all rs debug_bridge_at_start) = true).
  { apply (register_all_effect rs debug_bridge_at_start). reflexivity. }
  unfold bridge, register_all in *. rewrite fold_left_app. cbn [fold_left].
  set (d := fold_left _ rs _) in *.
  assert (Hshape :
    match reg_func r with
    | Some handler =>
        gum_debug_handler (register_debug r d) = Some handler /\
        gum_debug_data (register_debug r d) = reg_data r /\
        gum_debug_context (register_debug r d) = Some DebugContext /\
        engine_message_handler (register_debug r d)
          = Some gum_script_on_debug_message
    | None =>
        gum_debug_handler (register_debug r d) = None /\
        engine_message_handler (register_debug r d) = None
    end).
  { destruct r as [func data notify]. destruct d as [h0 data0 n0 c0 e0 t0].
    unfold register_debug, gum_script_set_debug_message_handler,
      debug_consistent in *.
    destruct h0 as [h|], n0 as [n|], c0 as [c|], e0 as [e|], func as [f|];
      cbn in *; try discriminate Hcons; repeat split. }
  split; [|split; [|split; reflexivity]].
  - unfold engine_delivers, call_gum_script_on_debug_message.
    destruct (reg_func r) as [handler|].
    + destruct Hshape as (Hh & Hd & _ & He). rewrite He, Hh, Hd. reflexivity.
    + destruct Hshape as (_ & He). rewrite He. reflexivity.
  - unfold gum_script_post_debug_message.
    destruct (reg_func r) as [handler|].
    + destruct Hshape as (Hh & Hd & Hc & He). rewrite Hh, Hc.
      destruct (g_utf8_to_utf16 message) as [command|]; [|reflexivity].
      f_equal. apply map_ext. intros reply.
      unfold engine_delivers, call_gum_script_on_debug_message.
      rewrite He, Hh, Hd. reflexivity.
    + destruct Hshape as (Hh & _). rewrite Hh. reflexivity.
Qed.

End DebugTraffic.

(** ** The engine runtime *)

Lemma first_use_brings_runtime_up (u : RuntimeUse) :
  runtime_up (runtime_use runtime_at_start u) /\
  debug (runtime_use runtime_at_start u)
    = debug_after_use u debug_bridge_at_start.
Proof. destruct u as [|r]; repeat split. Qed.

Lemma later_use_keeps_runtime_up (u : RuntimeUse) (rt : Runtime) :
  runtime_up rt ->
  runtime_up (runtime_use rt u) /\
  debug (runtime_use rt u) = debug_after_use u (debug rt).
Proof.
  intros (Hi & Hd & Hs & Hp & Ht).
  destruct rt as [io sch pl dr dbg t]. cbn in Hi, Hd, Hs, Hp, Ht. subst.
  destruct u as [|r]; repeat split.
Qed.

Lemma uses_keep_runtime_up (uses : list RuntimeUse) :
  forall rt,
    runtime_up rt ->
    runtime_up (fold_left runtime_use uses rt) /\
    debug (fold_left runtime_use uses rt)
      = register_all (registrations_of uses) (debug rt).
Proof.
  induction uses as [|u rest IH]; intros rt Hup.
  - split; [exact Hup | reflexivity].
  - destruct (later_use_keeps_runtime_up u rt Hup) as (Hup' & Hdbg).
    destruct (IH _ Hup') as (Hfinal & Hdbg').
    cbn [fold_left]. split; [exact Hfinal|].
    rewrite Hdbg', Hdbg. destruct u as [|r]; reflexivity.
Qed.

Lemma unregister_after_all (rs : list DebugRegistration) :
  let cleared :=
    register_debug (mkRegistration None 0 None)
      (register_all rs debug_bridge_at_start) in
  notifications (debug_trace cleared) = flat_map release_due rs /\
  gum_debug_handler cleared = None /\
  engine_message_handler cleared = None.
Proof.
  intros cleared. unfold cleared.
  destruct (register_all_effect rs debug_bridge_at_start) as (Hall & Hcons).
  specialize (Hcons eq_refl).
  set (d := register_all rs debug_bridge_at_start) in *.
  destruct (register_debug_effect (mkRegistration None 0 None) d)
    as (Hn & _ & Hh & Hc).
  specialize (Hc Hcons).
  split; [rewrite Hn, Hall; reflexivity|]. split; [exact Hh|].
  unfold debug_consistent in Hc. rewrite Hh in Hc. cbn [reg_func] in Hc.
  destruct (engine_message_handler
              (register_debug (mkRegistration None 0 None) d));
    [|reflexivity].
  rewrite !andb_false_r in Hc. cbn in Hc.
  destruct (is_null (gum_debug_context
                       (register_debug (mkRegistration None 0 None) d)));
    discriminate Hc.
Qed.

(** X13.  Whatever series of script creations and debug registrations a
    process makes, the runtime is brought up exactly once, by the first of
    them, and when the process winds down the teardown registered then gives
    up what was acquired in the exact reverse order, leaves no platform and
    no scheduler, unregisters the debug handler and so invokes every release
    callback owed; a process that made none never touches the engine. *)
Theorem runtime_teardown_mirrors_bringup (uses : list RuntimeUse) :
  let rt := process_exit (fold_left runtime_use uses runtime_at_start) in
  runtime_trace rt =
    match uses with
    | [] => []
    | _ :: _ =>
        [RtSchedulerNew; RtPlatformNew;
         RtSetFlagsFromString GUM_SCRIPT_V8_FLAGS 21;
         RtInitializePlatform; RtInitialize; RtIsolateNew; RtIsolateEnter;
         RtRegisterDestructor;
         RtIsolateExit; RtIsolateDispose; RtDispose; RtShutdownPlatform;
         RtPlatformDelete; RtSchedulerFree]
    end /\
  released_of (runtime_trace rt) = List.rev (acquired_of (runtime_trace rt)) /\
  gum_platform rt = false /\
  gum_scheduler rt = false /\
  gum_debug_handler (debug rt) = None /\
  engine_message_handler (debug rt) = None /\
  notifications (debug_trace (debug rt))
    = flat_map release_due (registrations_of uses).
Proof.
  intros rt. destruct uses as [|u rest]; [repeat split|].
  cbn [fold_left] in rt.
  destruct (first_use_brings_runtime_up u) as (Hup & Hdbg).
  destruct (uses_keep_runtime_up rest _ Hup) as (Hfinal & Hdbg').
  set (live := fold_left runtime_use rest (runtime_use runtime_at_start u))
    in *.
  destruct Hfinal as (Hi & Hd & Hs & Hp & Ht).
  assert (Hbridge : debug live
                    = register_all (registrations_of (u :: rest))
                        debug_bridge_at_start).
  { rewrite Hdbg', Hdbg. destruct u as [|r]; reflexivity. }
  assert (Hrt : rt =
    mkRuntime true false false true
      (register_debug (mkRegistration None 0 None) (debug live))
      (runtime_trace live
       ++ [RtIsolateExit; RtIsolateDispose; RtDispose; RtShutdownPlatform;
           RtPlatformDelete; RtSchedulerFree])).
  { unfold rt, process_exit. rewrite Hd.
    unfold gum_script_runtime_do_deinit, runtime_set_debug_message_handler,
      gum_script_runtime_get_isolate, runtime_calls.
    rewrite Hi. cbn. rewrite Hi, Hd, <- app_assoc. reflexivity. }
  rewrite Hrt. cbn [runtime_trace gum_platform gum_scheduler debug].
  rewrite Ht, Hbridge.
  pose proof (unregister_after_all (registrations_of (u :: rest)))
    as (Hn & Hh & He).
  repeat split; assumption.
Qed.

(** ** The model at work on the toy engine *)

Example create_boom :
  gum_script_from_string toy_runtime toy_engine boom_src true
  = Done (Some boom_instance, None) boom_instance.
Proof. reflexivity. Qed.

Example create_reentrant :
  gum_script_from_string toy_runtime toy_engine reentrant_src false
  = Done (Some reentrant_instance, None) reentrant_instance.
Proof. reflexivity. Qed.

(** The scenario of a script that throws when loaded: one error message, with
    line 1 of the user's source. *)
Example load_boom :
  gum_script_load toy_runtime toy_engine toy_strescape 2 boom_instance
  = Done tt
      (mkScript (set_loaded true (priv boom_instance))
         (trace boom_instance
          ++ [EvLock; EvIsolateEnter; EvHandleScopeOpen; EvContextEnter; EvRun;
              EvEmitMessage (error_json 1 "Error: boom");
              EvContextExit; EvHandleScopeClose; EvIsolateExit; EvUnlock;
              EvProcessPending])).
Proof. reflexivity. Qed.

Example load_reentrant_out_of_fuel :
  gum_script_load toy_runtime toy_engine toy_strescape 1 reentrant_instance
  = OutOfFuel.
Proof. reflexivity. Qed.

Example unload_then_load_runs_again :
  match (gum_script_load toy_runtime toy_engine toy_strescape 2 ;;
         gum_script_unload ;;
         gum_script_load toy_runtime toy_engine toy_strescape 2)%host
          boom_instance with
  | Done _ final => Some (count is_run (trace final), lifecycle_ok (priv final))
  | _ => None
  end = Some (2%nat, true).
Proof. vm_compute. reflexivity. Qed.

(** ** The theorems applied *)

(** With an engine that knows no line for its diagnostic, creation fails with
    an error that names line -1: there is no handle, and no error with a line
    of at least 1 either. *)
Lemma from_string_line_below_one :
  (exists instance,
      gum_script_from_string toy_runtime lineless_engine "(" true =
      Done (None,
            Some (mkGError G_IO_ERROR G_IO_ERROR_FAILED
                    "Script(line -1): RangeError: Maximum call stack size exceeded"))
        instance) /\
  ~ (exists instance,
        gum_script_from_string toy_runtime lineless_engine "(" true
        = Done (Some instance, None) instance) /\
  ~ (exists line exception_str,
        lineless_engine (combined_source toy_runtime "(")
          = CompileFail line exception_str /\
        1 <= line - GUM_SCRIPT_RUNTIME_SOURCE_LINE_COUNT).
Proof.
  split; [eexists; vm_compute; reflexivity|]. split.
  - intros (instance & H). vm_compute in H. discriminate H.
  - intros (line & exception_str & H & Hline).
    unfold lineless_engine in H. injection H as <- _.
    unfold GUM_SCRIPT_RUNTIME_SOURCE_LINE_COUNT in Hline. lia.
Qed.

Lemma scope_turns_exception_into_message_witness :
  let quote := String "034"%char EmptyString in
  let boom_message :=
    "{" ++ quote ++ "type" ++ quote ++ ":" ++ quote ++ "error" ++ quote
    ++ "," ++ quote ++ "lineNumber" ++ quote ++ ":1"
    ++ "," ++ quote ++ "description" ++ quote ++ ":"
    ++ quote ++ "Error: boom" ++ quote ++ "}" in
  context (priv boom_instance) <> None /\
  raw_script (priv boom_instance) = Some [JsThrow 2 "Error: boom"] /\
  loaded (priv boom_instance) = false /\
  script_outcome [JsThrow 2 "Error: boom"] = Some (2, "Error: boom") /\
  (exists final,
      with_ScriptScope toy_strescape
        (call EvRun ;; Script_Run (ret tt) [JsThrow 2 "Error: boom"])%host
        boom_instance = Done tt final /\
      priv final = priv boom_instance /\
      trace final =
        (trace (add_events (add_events boom_instance enter_events) [EvRun])
         ++ [EvEmitMessage boom_message]
         ++ [EvContextExit; EvHandleScopeClose; EvIsolateExit; EvUnlock;
             EvProcessPending])%list /\
      count is_emit (trace final)
        = S (count is_emit
               (trace (add_events (add_events boom_instance enter_events)
                         [EvRun])))) /\
  (exists final,
      gum_script_load toy_runtime toy_engine toy_strescape 2 boom_instance
        = Done tt final /\
      priv final = set_loaded true (priv boom_instance) /\
      trace final =
        (trace boom_instance ++ enter_events ++ [EvRun]
         ++ [EvEmitMessage boom_message]
         ++ [EvContextExit; EvHandleScopeClose; EvIsolateExit; EvUnlock;
             EvProcessPending])%list).
Proof.
  cbv zeta.
  split; [discriminate|]. split; [reflexivity|]. split; [reflexivity|].
  split; [reflexivity|].
  exact (scope_turns_exception_into_message toy_runtime toy_engine
           toy_strescape
           (call EvRun ;; Script_Run (ret tt) [JsThrow 2 "Error: boom"])%host
           boom_instance
           (add_events (add_events boom_instance enter_events) [EvRun])
           boom_instance [JsThrow 2 "Error: boom"] 0 2 "Error: boom"
           ltac:(discriminate) eq_refl ltac:(discriminate) eq_refl eq_refl
           eq_refl).
Defined.

Lemma scope_always_signals_tracer_witness :
  context (priv boom_instance) <> None /\
  exists final before_hook,
    with_ScriptScope toy_strescape
      (call EvRun ;; Script_Run (ret tt) [JsSend "2"])%host
      boom_instance = Done tt final /\
    trace final =
      (trace (add_events (add_events boom_instance enter_events)
                [EvRun; EvEmitMessage "2"])
       ++ before_hook ++ [EvProcessPending])%list /\
    count is_process_pending before_hook = 0%nat /\
    count is_process_pending (before_hook ++ [EvProcessPending]) = 1%nat.
Proof.
  split; [discriminate|].
  apply (scope_always_signals_tracer toy_strescape
           (call EvRun ;; Script_Run (ret tt) [JsSend "2"])%host
           boom_instance
           (add_events (add_events boom_instance enter_events)
              [EvRun; EvEmitMessage "2"])
           None).
  - discriminate.
  - reflexivity.
Defined.

Lemma load_twice_runs_once_witness :
  lifecycle_ok (priv reentrant_instance) = true /\
  loaded (priv reentrant_instance) = false /\
  exists once added,
    gum_script_load toy_runtime toy_engine toy_strescape 2 reentrant_instance
      = Done tt once /\
    gum_script_load toy_runtime toy_engine toy_strescape 1 once
      = Done tt once /\
    (gum_script_load toy_runtime toy_engine toy_strescape 2 ;;
     gum_script_load toy_runtime toy_engine toy_strescape 1)%host
      reentrant_instance = Done tt once /\
    loaded (priv once) = true /\
    raw_script (priv once)
      = Some [JsSend "a"; JsCallLoad; JsSend "b"; JsCallLoad] /\
    trace once = (trace reentrant_instance ++ added)%list /\
    count is_run added = 1%nat.
Proof.
  split; [reflexivity|]. split; [reflexivity|].
  apply (load_twice_runs_once toy_runtime toy_engine toy_strescape
           reentrant_instance
           [JsSend "a"; JsCallLoad; JsSend "b"; JsCallLoad] 0 0).
  - reflexivity.
  - reflexivity.
  - reflexivity.
Defined.

Lemma destroy_context_reverse_order_witness :
  context (priv boom_instance) <> None /\
  exists after,
    gum_script_destroy_context boom_instance = Done tt after /\
    trace after =
      (trace boom_instance
       ++ [EvLock; EvIsolateEnter; EvHandleScopeOpen]
       ++ [EvContextEnter; EvFlush core]
       ++ map EvDispose (List.rev binding_init_order)
       ++ [EvContextExit]
       ++ (if is_null (raw_script (priv boom_instance))
           then [] else [EvDeleteScript])
       ++ [EvDeleteContext]
       ++ map EvFinalize (List.rev binding_init_order)
       ++ [EvHandleScopeClose; EvIsolateExit; EvUnlock])%list /\
    context (priv after) = None /\
    raw_script (priv after) = None /\
    loaded (priv after) = false.
Proof.
  split; [discriminate|].
  apply (destroy_context_reverse_order toy_runtime toy_engine
           boom_instance boom_src true).
  discriminate.
Defined.

Lemma lifecycle_invariant_kept_witness :
  lifecycle_ok (priv reentrant_instance) = true /\
  (exists after,
      gum_script_load toy_runtime toy_engine toy_strescape 2 reentrant_instance
        = Done tt after /\
      lifecycle_ok (priv after) = true) /\
  (exists after,
      gum_script_unload reentrant_instance = Done tt after /\
      lifecycle_ok (priv after) = true) /\
  (exists after,
      gum_script_dispose reentrant_instance = Done tt after /\
      lifecycle_ok (priv after) = true).
Proof.
  split; [reflexivity|].
  apply (lifecycle_invariant_kept toy_runtime toy_engine toy_strescape
           reentrant_instance 0 "}" true).
  reflexivity.
Defined.


Lemma load_swallows_rebuild_error_witness :
  context (priv rejected_instance) = None /\
  raw_script (priv rejected_instance) = None /\
  toy_engine (combined_source toy_runtime (source (priv rejected_instance)))
    = CompileFail 2 "SyntaxError: Unexpected token }" /\
  exists after,
    gum_script_load toy_runtime toy_engine toy_strescape 1 rejected_instance
      = Done tt after /\
    count is_run (trace after) = count is_run (trace rejected_instance) /\
    context (priv after) = None /\
    raw_script (priv after) = None /\
    loaded (priv after) = false.
Proof.
  split; [reflexivity|]. split; [reflexivity|]. split; [reflexivity|].
  destruct (load_swallows_rebuild_error toy_runtime toy_engine toy_strescape
              rejected_instance 0 2 "SyntaxError: Unexpected token }"
              eq_refl eq_refl eq_refl)
    as (after & Hload & _ & _ & Hruns & Hctx & Hprog & Hld).
  exists after. repeat split; assumption.
Defined.

Lemma load_sets_flag_before_run_witness :
  context (priv reentrant_instance) <> None /\
  raw_script (priv reentrant_instance)
    = Some [JsSend "a"; JsCallLoad; JsSend "b"; JsCallLoad] /\
  loaded (priv reentrant_instance) = false /\
  exists final,
    gum_script_load toy_runtime toy_engine toy_strescape 2 reentrant_instance
      = Done tt final /\
    loaded (priv final) = true /\
    trace final =
      (trace reentrant_instance ++ enter_events ++ [EvRun]
       ++ [EvEmitMessage "a"; EvEmitMessage "b"]
       ++ leave_events toy_strescape None)%list.
Proof.
  split; [discriminate|]. split; [reflexivity|]. split; [reflexivity|].
  destruct (load_sets_flag_before_run toy_runtime toy_engine toy_strescape
              reentrant_instance
              [JsSend "a"; JsCallLoad; JsSend "b"; JsCallLoad] 0)
    as (_ & _ & final & Hload & Hld & Htrace & _).
  - discriminate.
  - reflexivity.
  - reflexivity.
  - exists final. repeat split; assumption.
Defined.

Lemma dispose_tears_down_only_when_loaded_witness :
  lifecycle_ok (priv boom_instance) = true /\
  exists final,
    g_object_unref boom_instance = Done tt final /\
    isolate (priv final) = false /\
    loaded (priv final) = false /\
    context (priv final) = Some ScriptContext /\
    raw_script (priv final) = Some [JsThrow 2 "Error: boom"] /\
    trace final = trace boom_instance.
Proof.
  split; [reflexivity|].
  destruct (dispose_tears_down_only_when_loaded boom_instance eq_refl)
    as (final & Hunref & Hiso & Hld & Hctx & Hprog & Htrace).
  exists final. repeat split; assumption.
Defined.

Lemma reload_runs_program_again_witness :
  let loaded_instance :=
    mkScript (set_loaded true (priv boom_instance)) (trace boom_instance) in
  lifecycle_ok (priv loaded_instance) = true /\
  loaded (priv loaded_instance) = true /\
  toy_engine (combined_source toy_runtime (source (priv loaded_instance)))
    = CompileOk [JsThrow 2 "Error: boom"] /\
  exists final,
    (gum_script_unload ;;
     gum_script_load toy_runtime toy_engine toy_strescape 2)%host
      loaded_instance = Done tt final /\
    trace final =
      (trace loaded_instance ++ teardown_events true
       ++ build_events toy_runtime boom_src
       ++ run_events toy_strescape [JsThrow 2 "Error: boom"])%list /\
    context (priv final) = Some ScriptContext /\
    raw_script (priv final) = Some [JsThrow 2 "Error: boom"] /\
    loaded (priv final) = true.
Proof.
  cbv zeta.
  split; [reflexivity|]. split; [reflexivity|]. split; [reflexivity|].
  apply (reload_runs_program_again toy_runtime toy_engine toy_strescape
           (mkScript (set_loaded true (priv boom_instance))
              (trace boom_instance))
           0 [JsThrow 2 "Error: boom"]).
  - reflexivity.
  - reflexivity.
  - reflexivity.
Defined.

Lemma load_retries_failed_rebuild_witness :
  context (priv rejected_instance) = None /\
  raw_script (priv rejected_instance) = None /\
  toy_engine (combined_source toy_runtime (source (priv rejected_instance)))
    = CompileFail 2 "SyntaxError: Unexpected token }" /\
  exists final,
    (gum_script_load toy_runtime toy_engine toy_strescape 1 ;;
     gum_script_load toy_runtime toy_engine toy_strescape 1)%host
      rejected_instance = Done tt final /\
    trace final =
      (trace rejected_instance
       ++ (build_events toy_runtime (source (priv rejected_instance))
           ++ teardown_events false)
       ++ (build_events toy_runtime (source (priv rejected_instance))
           ++ teardown_events false))%list /\
    priv final = mkPriv "}" true None None false /\
    count is_run (trace final) = count is_run (trace rejected_instance).
Proof.
  split; [reflexivity|]. split; [reflexivity|]. split; [reflexivity|].
  apply (load_retries_failed_rebuild toy_runtime toy_engine toy_strescape
           rejected_instance 0 0 2 "SyntaxError: Unexpected token }").
  - reflexivity.
  - reflexivity.
  - reflexivity.
Defined.
